(** * The autonomous development loop of [autonomous_agent.py]

    A shallow embedding of the [AutonomousAgent] class and of [main]:
    the agent's methods are functions in a small state-and-exception
    monad over an explicit model of what the script touches (the
    filesystem below the working directory, the child processes it
    launches, its standard output), followed by the properties of the
    iteration loop, the test runner and the scaffolder.

    Conventions of the model.
    - A Python [str] is the [string] of its UTF-8 bytes: [len] and
      slicing count characters, that is, the bytes that do not
      continue a character ([str_len], [str_prefix]).
    - Python [int] is [Z].
    - A [pathlib.Path] is kept as its [str], the normal form
      [Path_str] computes; the place it names on disk is the list of
      components [resolve] computes for the working directory of the
      process. [..] is taken with the component before it, as the
      system does when that component is a directory.
    - A filesystem is a finite map from places to nodes: a directory,
      a regular file with the text it holds, or a regular file that
      does not decode. Time stamps, permissions and symbolic links are
      not part of the state, and a write to a file that has been
      opened succeeds (every text encodes, the disk is not full), as
      does a [print].
    - What a child process does (its exit code and output, the
      exception [subprocess.run] raises, or that it never ends) is
      given by the environment, one outcome per launch, in launch
      order. *)

From Stdlib Require Import ZArith String List Ascii Decimal DecimalString Lia.
From stdpp Require Import gmap strings list fin_maps.

Open Scope string_scope.
Open Scope Z_scope.

(** ** Strings *)

(** [str(n)] for an [int] *)
Definition str_of_int (n : Z) : string := NilZero.string_of_int (Z.to_int n).

(** [s * n] *)
Fixpoint repeat_str (s : string) (n : nat) : string :=
  match n with
  | O => ""
  | S n' => s ++ repeat_str s n'
  end.

(** The bytes [10xxxxxx], which continue a character. *)
Definition is_continuation (c : ascii) : bool :=
  match c with
  | Ascii _ _ _ _ _ _ b6 b7 => b7 && negb b6
  end.

(** [len(s)] *)
Fixpoint str_len (s : string) : nat :=
  match s with
  | EmptyString => O
  | String c s' => if is_continuation c then str_len s' else S (str_len s')
  end.

(** [s[:n]] *)
Fixpoint str_prefix (n : nat) (s : string) : string :=
  match s with
  | EmptyString => ""
  | String c s' =>
      if is_continuation c then String c (str_prefix n s')
      else
        match n with
        | O => ""
        | S n' => String c (str_prefix n' s')
        end
  end.

(** What reading in text mode makes of the line ends: [\r\n] and a
    lone [\r] become [\n]. *)
Fixpoint universal_newlines (s : string) : string :=
  match s with
  | EmptyString => ""
  | String c s' =>
      if Ascii.eqb c "013" then
        match s' with
        | String c' s'' =>
            if Ascii.eqb c' "010" then String "010" (universal_newlines s'')
            else String "010" (universal_newlines s')
        | EmptyString => String "010" ""
        end
      else String c (universal_newlines s')
  end.

(** [repr] of a list of plain words (no quote, no backslash), as
    [subprocess] shows a command. *)
Definition repr_words (ws : list string) : string :=
  "[" ++ String.concat ", " (map (fun w => "'" ++ w ++ "'") ws) ++ "]".

(** [needle in hay] *)
Definition contains (needle hay : string) : Prop :=
  exists before after, hay = before ++ needle ++ after.

(** ** Paths *)

Fixpoint split_slash (s cur : string) : list string :=
  match s with
  | EmptyString => [cur]
  | String c s' =>
      if Ascii.eqb c "/" then cur :: split_slash s' "" else split_slash s' (cur ++ String c "")
  end.

Definition enter (dir : list string) (part : string) : list string :=
  if String.eqb part "" then dir
  else if String.eqb part "." then dir
  else if String.eqb part ".." then removelast dir
  else dir ++ [part].

(** The directory a path string denotes for a process whose working
    directory is [wd]: absolute when it starts with a slash, below [wd]
    otherwise. *)
Definition resolve (wd : list string) (p : string) : list string :=
  fold_left enter (split_slash p "")
    (match p with
     | String c _ => if Ascii.eqb c "/" then [] else wd
     | EmptyString => wd
     end).

(** [p / name] *)
Definition child (p : list string) (name : string) : list string := p ++ [name].

Definition parent (p : list string) : list string := removelast p.

(** The root of a path string: [/], or [//] for exactly two leading
    slashes, or none. *)
Definition path_root (s : string) : string :=
  match s with
  | String a (String b (String c _)) =>
      if negb (Ascii.eqb a "/") then ""
      else if Ascii.eqb b "/" && negb (Ascii.eqb c "/") then "//" else "/"
  | String a (String b EmptyString) =>
      if negb (Ascii.eqb a "/") then "" else if Ascii.eqb b "/" then "//" else "/"
  | String a EmptyString => if Ascii.eqb a "/" then "/" else ""
  | EmptyString => ""
  end.

Definition is_part (x : string) : bool :=
  negb (String.eqb x "") && negb (String.eqb x ".").

(** [str(Path(s))]: empty components and [.] are dropped, [..] stays. *)
Definition Path_str (s : string) : string :=
  let shown := path_root s ++ String.concat "/" (List.filter is_part (split_slash s "")) in
  if String.eqb shown "" then "." else shown.

(** [str(p / name)] for a path whose [str] is [dir] and a plain name. *)
Definition path_join (dir name : string) : string :=
  if String.eqb dir "." then name
  else if String.eqb dir "/" || String.eqb dir "//" then dir ++ name
  else dir ++ "/" ++ name.

(** ** Exceptions *)

Inductive exn_class :=
| FileNotFoundError
| FileExistsError
| NotADirectoryError
| IsADirectoryError
| PermissionError
| OSError
| UnicodeDecodeError
| TimeoutExpired
| OtherException
| KeyboardInterrupt.

Record exn := Exn { exn_cls : exn_class; exn_str : string }.

(** [isinstance(e, Exception)]: of the classes above only
    [KeyboardInterrupt] derives from [BaseException] directly. *)
Definition is_Exception (e : exn) : bool :=
  match exn_cls e with
  | KeyboardInterrupt => false
  | _ => true
  end.

Definition is_TimeoutExpired (e : exn) : bool :=
  match exn_cls e with
  | TimeoutExpired => true
  | _ => false
  end.

Definition is_KeyboardInterrupt (e : exn) : bool :=
  match exn_cls e with
  | KeyboardInterrupt => true
  | _ => false
  end.

(** ** The world the script runs in *)

(** What a path holds: a directory, a regular file with its text, or
    a regular file that text mode cannot decode, with what the codec
    says of it. *)
Inductive node :=
| Dir
| File (content : string)
| Undecodable (reason : string).

(** [subprocess.CompletedProcess] *)
Record CompletedProcess := Completed {
  cp_returncode : Z;
  cp_stdout : string;
  cp_stderr : string }.

(** What a call of [subprocess.run] meets: the child finishes, or the
    call raises (the command is not found, the timeout expires, the
    user interrupts, ...), or the child never ends, so that only a
    timeout gets the call back. *)
Inductive proc_outcome :=
| Finishes (cp : CompletedProcess)
| Fails (e : exn)
| NeverEnds.

(** What the process does to the outside, in the order it does it:
    a line printed, the traceback printed by [traceback.print_exc()],
    a child process launched by [subprocess.run], a prompt handed to
    [send_to_claude] together with the counter it prints (the place
    where the source would call the assistant), a [time.sleep], and a
    file written. *)
Inductive event :=
| Stdout (text : string)
| Traceback (e : exn)
| Run (argv : list string) (dir : list string) (timeout : option Z)
| Prompt (iteration : Z) (prompt : string)
| Sleep (seconds : Z)
| WriteFile (p : list string) (content : string).

(** The environment: the working directory of the process, the
    filesystem, what the child processes will do ([procs k] for the
    launch number [k]), how many were launched so far, and what the
    process did so far. The child processes themselves are opaque:
    what they may do to the filesystem is not modelled. *)
Record World := mkWorld {
  cwd : list string;
  fs : gmap (list string) node;
  procs : nat -> proc_outcome;
  launched : nat;
  trace : list event }.

(** The fields of an [AutonomousAgent] instance. *)
Record Agent := mkAgent {
  project_dir : string;
  max_iterations : Z;
  iteration : Z }.

(** The agent object and its environment. *)
Record State := mkState {
  self : Agent;
  world : World }.

Definition set_fs (f : gmap (list string) node) (st : State) : State :=
  let w := world st in
  mkState (self st) (mkWorld (cwd w) f (procs w) (launched w) (trace w)).

Definition log (ev : event) (st : State) : State :=
  let w := world st in
  mkState (self st) (mkWorld (cwd w) (fs w) (procs w) (launched w) (trace w ++ [ev])).

Definition next_launch (st : State) : State :=
  let w := world st in
  mkState (self st) (mkWorld (cwd w) (fs w) (procs w) (S (launched w)) (trace w)).

Definition set_iteration (i : Z) (st : State) : State :=
  let a := self st in
  mkState (mkAgent (project_dir a) (max_iterations a) i) (world st).

(** ** The monad: state, exceptions, and calls that do not come back *)

(** How a call ends: it returns, it raises, or it does not come back
    ([Diverge]): a child launched without a timeout never ends, or
    the loop has used up the passes it was given, which the number of
    passes [autonomous_development_loop] gives it excludes. *)
Inductive result (A : Type) :=
| Ret (a : A)
| Raise (e : exn)
| Diverge.

Arguments Ret {A} a.
Arguments Raise {A} e.
Arguments Diverge {A}.

Definition M (A : Type) : Type := State -> result A * State.

Definition ret {A} (a : A) : M A := fun st => (Ret a, st).

Definition raise {A} (e : exn) : M A := fun st => (Raise e, st).

Definition bind {A B} (m : M A) (k : A -> M B) : M B :=
  fun st =>
    match m st with
    | (Ret a, st') => k a st'
    | (Raise e, st') => (Raise e, st')
    | (Diverge, st') => (Diverge, st')
    end.

Declare Scope agent_scope.
Delimit Scope agent_scope with agent.
Notation "x <- c1 ;; c2" := (bind c1 (fun x => c2))
  (at level 100, c1 at next level, right associativity) : agent_scope.
Notation "c1 ;; c2" := (bind c1 (fun _ => c2))
  (at level 100, right associativity) : agent_scope.
Open Scope agent_scope.

Definition get : M State := fun st => (Ret st, st).

Definition emit (ev : event) : M unit := fun st => (Ret tt, log ev st).

Definition print (text : string) : M unit := emit (Stdout text).

(** ** Operating system calls *)

Module Os.

(** An [OSError] about the path the call was given, shown as given. *)
Definition os_error (c : exn_class) (what : string) (shown : string) : exn :=
  Exn c (what ++ ": '" ++ shown ++ "'").

(** The walk from [seen] down [rest] meets a regular file before it
    meets a name that is not there. *)
Fixpoint meets_file (f : gmap (list string) node) (seen rest : list string) : bool :=
  match rest with
  | [] => false
  | name :: rest' =>
      match f !! child seen name with
      | Some Dir => meets_file f (child seen name) rest'
      | Some _ => true
      | None => false
      end
  end.

(** The error for a path [p] that holds nothing: [ENOENT] when the
    name is missing from its directory or from one above, [ENOTDIR]
    when a regular file is in the way. *)
Definition absent_error (f : gmap (list string) node) (shown : string)
    (p : list string) : exn :=
  let in_the_way :=
    match f !! parent p with
    | Some Dir => false
    | Some _ => true
    | None => meets_file f [] p
    end in
  if in_the_way then os_error NotADirectoryError "[Errno 20] Not a directory" shown
  else os_error FileNotFoundError "[Errno 2] No such file or directory" shown.

(** Why a new entry cannot be made at [p], if it cannot. *)
Definition parent_error (f : gmap (list string) node) (shown : string)
    (p : list string) : option exn :=
  match f !! parent p with
  | Some Dir => None
  | _ => Some (absent_error f shown p)
  end.

(** [Path.exists()] *)
Definition exists_ (p : list string) : M bool :=
  fun st => (Ret (bool_decide (is_Some (fs (world st) !! p))), st).

(** [Path.mkdir(exist_ok=True)] *)
Definition mkdir_exist_ok (shown : string) (p : list string) : M unit :=
  fun st =>
    let f := fs (world st) in
    match f !! p with
    | Some Dir => (Ret tt, st)
    | Some _ => (Raise (os_error FileExistsError "[Errno 17] File exists" shown), st)
    | None =>
        match parent_error f shown p with
        | Some e => (Raise e, st)
        | None => (Ret tt, set_fs (<[p := Dir]> f) st)
        end
    end.

(** [Path.touch()] *)
Definition touch (shown : string) (p : list string) : M unit :=
  fun st =>
    let f := fs (world st) in
    match f !! p with
    | Some _ => (Ret tt, st)
    | None =>
        match parent_error f shown p with
        | Some e => (Raise e, st)
        | None => (Ret tt, set_fs (<[p := File ""]> f) st)
        end
    end.

(** [open(p).read()] *)
Definition read_text (shown : string) (p : list string) : M string :=
  fun st =>
    match fs (world st) !! p with
    | Some (File content) => (Ret (universal_newlines content), st)
    | Some (Undecodable reason) => (Raise (Exn UnicodeDecodeError reason), st)
    | Some Dir => (Raise (os_error IsADirectoryError "[Errno 21] Is a directory" shown), st)
    | None => (Raise (absent_error (fs (world st)) shown p), st)
    end.

(** [with open(p, "w") as f: f.write(content)]: [open] empties the
    file or makes it, [f.write] then stores the text, and does not
    fail here. *)
Definition write_text (shown : string) (p : list string) (content : string) : M unit :=
  fun st =>
    let f := fs (world st) in
    match f !! p with
    | Some Dir => (Raise (os_error IsADirectoryError "[Errno 21] Is a directory" shown), st)
    | _ =>
        match parent_error f shown p with
        | Some e => (Raise e, st)
        | None => (Ret tt, log (WriteFile p content) (set_fs (<[p := File content]> f) st))
        end
    end.

(** [str(e)] for the [TimeoutExpired] of [subprocess.run]. *)
Definition timeout_expired (argv : list string) (seconds : Z) : exn :=
  Exn TimeoutExpired
    ("Command '" ++ repr_words argv ++ "' timed out after " ++ str_of_int seconds
     ++ " seconds").

(** [subprocess.run(argv, cwd=dir, capture_output=True, text=True,
    timeout=timeout)]: a child that never ends is killed when the
    timeout expires, and keeps the call for ever when there is none. *)
Definition subprocess_run (argv : list string) (dir : list string)
    (timeout : option Z) : M CompletedProcess :=
  fun st =>
    let st' := next_launch (log (Run argv dir timeout) st) in
    match procs (world st) (launched (world st)) with
    | Finishes cp => (Ret cp, st')
    | Fails e => (Raise e, st')
    | NeverEnds =>
        match timeout with
        | Some seconds => (Raise (timeout_expired argv seconds), st')
        | None => (Diverge, st')
        end
    end.

(** [time.sleep(seconds)] *)
Definition sleep (seconds : Z) : M unit := emit (Sleep seconds).

End Os.

(** ** The agent *)

(** [AutonomousAgent.__init__] *)
Definition __init__ (project_dir : string) : Agent :=
  {| project_dir := Path_str project_dir; max_iterations := 50; iteration := 0 |}.

(** Where [self.project_dir] is on disk. *)
Definition root (st : State) : list string :=
  resolve (cwd (world st)) (project_dir (self st)).

(** [str(self.project_dir / name)] *)
Definition named (st : State) (name : string) : string :=
  path_join (project_dir (self st)) name.

Definition requirements_path (st : State) : list string :=
  child (root st) "PROJECT_REQUIREMENTS.md".

Definition instructions_path (st : State) : list string :=
  resolve (cwd (world st)) "SYSTEM_INSTRUCTIONS.md".

Definition report_path (st : State) : list string :=
  child (root st) "COMPLETION_REPORT.md".

(** [read_requirements] *)
Definition read_requirements : M string :=
  st <- get ;;
  let req_file := requirements_path st in
  present <- Os.exists_ req_file ;;
  if negb present then
    raise (Exn FileNotFoundError "PROJECT_REQUIREMENTS.md not found")
  else
    Os.read_text (named st "PROJECT_REQUIREMENTS.md") req_file.

(** [setup_project_structure] *)
Definition setup_project_structure : M unit :=
  st <- get ;;
  Os.mkdir_exist_ok (named st "src") (child (root st) "src") ;;
  Os.mkdir_exist_ok (named st "tests") (child (root st) "tests") ;;
  Os.touch (path_join (named st "src") "__init__.py")
    (child (child (root st) "src") "__init__.py") ;;
  Os.touch (path_join (named st "tests") "__init__.py")
    (child (child (root st) "tests") "__init__.py").

(** The dictionary [run_tests] returns. *)
Record TestResult := mkTestResult {
  passed : bool;
  output : string;
  returncode : Z }.

Definition pytest_argv : list string :=
  ["pytest"; "tests/"; "-v"; "--tb=short"; "--color=yes"].

Definition coverage_argv : list string :=
  ["pytest"; "tests/"; "--cov=src"; "--cov-report=term"].

Definition timed_out : TestResult :=
  {| passed := false; output := "Tests timed out after 60 seconds"; returncode := -1 |}.

Definition could_not_run (e : exn) : TestResult :=
  {| passed := false; output := "Error running tests: " ++ exn_str e; returncode := -1 |}.

(** [run_tests] *)
Definition run_tests : M TestResult :=
  fun st =>
    match Os.subprocess_run pytest_argv (root st) (Some 60) st with
    | (Ret result, st') =>
        (Ret {| passed := cp_returncode result =? 0;
                output := cp_stdout result ++ cp_stderr result;
                returncode := cp_returncode result |}, st')
    | (Raise e, st') =>
        if is_TimeoutExpired e then (Ret timed_out, st')
        else if is_Exception e then (Ret (could_not_run e), st')
        else (Raise e, st')
    | (Diverge, st') => (Diverge, st')
    end.

Definition rule : string := repeat_str "=" 80.

Definition initial_prompt (instructions requirements : string) : string :=
  "
AUTONOMOUS MODE: Implement the following requirements using TDD.

SYSTEM INSTRUCTIONS:
" ++ instructions ++ "

PROJECT REQUIREMENTS:
" ++ requirements ++ "

INSTRUCTIONS:
1. Write tests FIRST in tests/ folder (import from src/, NO hardcoding)
2. Implement code in src/ folder
3. Make tests pass
4. Report completion

Begin implementation now.
".

Definition debug_prompt (iteration : Z) (test_output : string) : string :=
  "
AUTONOMOUS DEBUGGING - Iteration " ++ str_of_int iteration ++ "

Test results:
" ++ test_output ++ "

INSTRUCTIONS:
1. Analyze the error
2. Identify the bug in src/ code
3. Fix the code (DO NOT modify tests)
4. The tests will run automatically next

Fix the issue now.
".

Definition report_text (iteration : Z) (test_output coverage : string) : string :=
  "
" ++ rule ++ "
✅ AUTONOMOUS DEVELOPMENT COMPLETE
" ++ rule ++ "

Total iterations: " ++ str_of_int iteration ++ "
Final status: ALL TESTS PASSING ✅

Test Results:
" ++ test_output ++ "

Coverage Report:
" ++ coverage ++ "

To verify:
1. Review tests in tests/ folder
2. Run: pytest tests/ -v
3. Check: All tests pass

Next steps:
- Review code in src/ folder
- Review tests to verify requirements
- Deploy if satisfied
".

(** [generate_final_report] *)
Definition generate_final_report (test_results : TestResult) : M unit :=
  st <- get ;;
  coverage_result <- Os.subprocess_run coverage_argv (root st) None ;;
  let report :=
    report_text (iteration (self st)) (output test_results) (cp_stdout coverage_result) in
  print report ;;
  Os.write_text (named st "COMPLETION_REPORT.md") (report_path st) report ;;
  print "
📄 Report saved to COMPLETION_REPORT.md".

Section Bridge.

(** The text the assistant answers with. The source returns a fixed
    placeholder ([placeholder] below) where a production bridge
    would return the standard output of the assistant's command
    line; the methods are stated over any answer, which may depend
    on the prompt and on everything that happened before. *)
Variable respond : State -> string -> string.

(** [send_to_claude] *)
Definition send_to_claude (prompt : string) : M string :=
  st <- get ;;
  print ("
" ++ rule) ;;
  print ("ITERATION " ++ str_of_int (iteration (self st))) ;;
  print rule ;;
  print ("
Sending to Claude:
" ++ str_prefix 200 prompt ++ "...
") ;;
  emit (Prompt (iteration (self st)) prompt) ;;
  ret (respond st prompt).

(** The statements before the [while] of [autonomous_development_loop]. *)
Definition startup : M unit :=
  st <- get ;;
  print "🤖 Starting Autonomous Development Agent..." ;;
  print ("📁 Project directory: " ++ project_dir (self st)) ;;
  setup_project_structure ;;
  print "✅ Project structure created" ;;
  requirements <- read_requirements ;;
  print ("✅ Requirements loaded (" ++ str_of_int (Z.of_nat (str_len requirements))
         ++ " chars)") ;;
  instructions <- Os.read_text "SYSTEM_INSTRUCTIONS.md" (instructions_path st) ;;
  send_to_claude (initial_prompt instructions requirements) ;;
  ret tt.

(** One pass through the body of the [while]: [Some b] when the body
    returns [b], [None] when it falls through to the next test of the
    loop condition. *)
Definition development_pass : M (option bool) :=
  (fun st => (Ret tt, set_iteration (iteration (self st) + 1) st)) ;;
  st <- get ;;
  print ("
🔄 Iteration " ++ str_of_int (iteration (self st)) ++ "/"
         ++ str_of_int (max_iterations (self st))) ;;
  test_results <- run_tests ;;
  if passed test_results then
    print "✅ ALL TESTS PASSED!" ;;
    generate_final_report test_results ;;
    ret (Some true)
  else
    send_to_claude (debug_prompt (iteration (self st)) (output test_results)) ;;
    Os.sleep 2 ;;
    ret None.

(** The [while] loop and the two statements after it, for at most
    [fuel] passes. *)
Fixpoint development_passes (fuel : nat) : M bool :=
  fun st =>
    if iteration (self st) <? max_iterations (self st) then
      match fuel with
      | O => (Diverge, st)
      | S fuel' =>
          match development_pass st with
          | (Ret (Some b), st') => (Ret b, st')
          | (Ret None, st') => development_passes fuel' st'
          | (Raise e, st') => (Raise e, st')
          | (Diverge, st') => (Diverge, st')
          end
      end
    else
      (print "❌ Max iterations reached. Development incomplete." ;; ret false) st.

(** The number of passes the loop condition can allow from [st]. *)
Definition passes_left (st : State) : nat :=
  Z.to_nat (max_iterations (self st) - iteration (self st)).

(** [autonomous_development_loop] *)
Definition autonomous_development_loop : M bool :=
  startup ;;
  fun st => development_passes (passes_left st) st.

(** How the process ends: with an exit code, or not at all. *)
Inductive exit_status :=
| Exit (code : Z)
| Hangs.

(** The [try] statement of [main], for an agent already constructed. *)
Definition run_agent (agent : Agent) (w : World) : exit_status * State :=
  match autonomous_development_loop (mkState agent w) with
  | (Ret success, st) => (Exit (if success then 0 else 1), st)
  | (Raise e, st) =>
      if is_KeyboardInterrupt e then
        (Exit 1, log (Stdout "

⚠️  Development interrupted by user") st)
      else
        (Exit 1, log (Traceback e) (log (Stdout ("

❌ Error: " ++ exn_str e)) st))
  | (Diverge, st) => (Hangs, st)
  end.

(** [main], for the process arguments [argv] ([sys.argv]). *)
Definition main (argv : list string) (w : World) : exit_status * State :=
  let project_dir :=
    match argv with
    | _ :: dir :: _ => dir
    | _ => "."
    end in
  run_agent (__init__ project_dir) w.

End Bridge.

(** The answer of the source's [send_to_claude]. *)
Definition placeholder : State -> string -> string :=
  fun _ _ => "PLACEHOLDER: Claude would respond here".

(** ** What a run leaves behind: readings of the trace *)

Definition is_test_run (ev : event) : bool :=
  match ev with
  | Run argv _ _ => bool_decide (argv = pytest_argv)
  | _ => false
  end.

Definition is_coverage_run (ev : event) : bool :=
  match ev with
  | Run argv _ _ => bool_decide (argv = coverage_argv)
  | _ => false
  end.

Definition is_write (ev : event) : bool :=
  match ev with
  | WriteFile _ _ => true
  | _ => false
  end.

Definition prompt_of (ev : event) : list (Z * string) :=
  match ev with
  | Prompt i p => [(i, p)]
  | _ => []
  end.

(** How many times the test command was launched. *)
Definition test_executions (t : list event) : nat :=
  length (List.filter is_test_run t).

(** How many times the coverage command of [generate_final_report]
    was launched. *)
Definition report_runs (t : list event) : nat :=
  length (List.filter is_coverage_run t).

(** The files written, in order. *)
Definition writes (t : list event) : list event := List.filter is_write t.

(** The prompts handed to the assistant, each with the value of the
    iteration counter at that moment, in order. *)
Definition prompts_sent (t : list event) : list (Z * string) :=
  flat_map prompt_of t.

(** What [run_tests] makes of the outcome of its child process. *)
Definition verdict (o : proc_outcome) : result TestResult :=
  match o with
  | Finishes cp =>
      Ret {| passed := cp_returncode cp =? 0;
             output := cp_stdout cp ++ cp_stderr cp;
             returncode := cp_returncode cp |}
  | Fails e =>
      if is_TimeoutExpired e then Ret timed_out
      else if is_Exception e then Ret (could_not_run e)
      else Raise e
  | NeverEnds => Ret timed_out
  end.

(** The test command does not succeed: it exits with a code other than
    0, or launching it raises an [Exception] (the timeout included),
    or it never ends and the timeout of [run_tests] stops it. *)
Definition test_fails (o : proc_outcome) : bool :=
  match o with
  | Finishes cp => negb (cp_returncode cp =? 0)
  | Fails e => is_Exception e
  | NeverEnds => true
  end.

(** The next outcome the environment holds ready. *)
Definition next_outcome (st : State) : proc_outcome :=
  procs (world st) (launched (world st)).

(** The state after one launch of the test command. *)
Definition after_test_run (st : State) : State :=
  next_launch (log (Run pytest_argv (root st) (Some 60)) st).

(** The lines [send_to_claude] prints and the prompt it hands over. *)
Definition send_events (i : Z) (prompt : string) : list event :=
  [ Stdout ("
" ++ rule);
    Stdout ("ITERATION " ++ str_of_int i);
    Stdout rule;
    Stdout ("
Sending to Claude:
" ++ str_prefix 200 prompt ++ "...
");
    Prompt i prompt ].

Definition add_events (evs : list event) (st : State) : State :=
  let w := world st in
  mkState (self st) (mkWorld (cwd w) (fs w) (procs w) (launched w) (trace w ++ evs)).

(** ** Notions used in the statements *)

(** A state that differs from [st] at most in the filesystem, where
    [p] now holds a node accepted by [good] and every other path is as
    before. *)
Definition settles (good : node -> Prop) (p : list string) (st st' : State) : Prop :=
  self st' = self st /\
  cwd (world st') = cwd (world st) /\
  procs (world st') = procs (world st) /\
  launched (world st') = launched (world st) /\
  trace (world st') = trace (world st) /\
  (exists n, fs (world st') !! p = Some n /\ good n) /\
  (forall q, q <> p -> fs (world st') !! q = fs (world st) !! q).

Definition is_dir (n : node) : Prop := n = Dir.

Definition any_node (n : node) : Prop := True.

(** The four steps of [setup_project_structure], over the paths they
    act on. *)
Definition scaffold (s t si ti : string) (S T SI TI : list string) : M unit :=
  Os.mkdir_exist_ok s S ;; Os.mkdir_exist_ok t T ;; Os.touch si SI ;; Os.touch ti TI.

(** The layout [setup_project_structure] makes is there already. *)
Definition layout_exists (st : State) : Prop :=
  fs (world st) !! child (root st) "src" = Some Dir /\
  fs (world st) !! child (root st) "tests" = Some Dir /\
  is_Some (fs (world st) !! child (child (root st) "src") "__init__.py") /\
  is_Some (fs (world st) !! child (child (root st) "tests") "__init__.py").

(** [self.iteration += 1] *)
Definition bump (st : State) : State := set_iteration (iteration (self st) + 1) st.

(** The line a pass prints first, for the counter and the cap it shows. *)
Definition banner (i cap : Z) : event :=
  Stdout ("
🔄 Iteration " ++ str_of_int i ++ "/" ++ str_of_int cap).

(** What a pass whose tests fail with result [r] adds to the trace,
    for the value [i] of the counter during the pass. *)
Definition failed_pass_events (i cap : Z) (dir : list string) (r : TestResult) : list event :=
  [banner i cap; Run pytest_argv dir (Some 60)]
  ++ send_events i (debug_prompt i (output r)) ++ [Sleep 2].

(** The state a pass whose tests fail with result [r] ends in. *)
Definition failed_pass (st : State) (r : TestResult) : State :=
  let i := iteration (self st) + 1 in
  add_events (failed_pass_events i (max_iterations (self st)) (root st) r)
    (next_launch (bump st)).

(** What [generate_final_report] adds to the trace. *)
Definition report_events (dir p : list string) (report : string) : list event :=
  [ Run coverage_argv dir None;
    Stdout report;
    WriteFile p report;
    Stdout "
📄 Report saved to COMPLETION_REPORT.md" ].

(** The state [generate_final_report] ends in when it writes [report]. *)
Definition reported (st : State) (report : string) : State :=
  add_events (report_events (root st) (report_path st) report)
    (next_launch (set_fs (<[report_path st := File report]> (fs (world st))) st)).

(** The report can be written: its place is not taken by a directory,
    and the project directory is there. *)
Definition report_writable (st : State) : Prop :=
  fs (world st) !! report_path st <> Some Dir /\
  fs (world st) !! root st = Some Dir.

(** The state a pass whose tests pass with result [r] ends in, when
    the coverage command finishes as [cov]. *)
Definition passed_pass (st : State) (r : TestResult) (cov : CompletedProcess) : State :=
  let i := iteration (self st) + 1 in
  reported
    (add_events [banner i (max_iterations (self st));
                 Run pytest_argv (root st) (Some 60);
                 Stdout "✅ ALL TESTS PASSED!"]
       (next_launch (bump st)))
    (report_text i (output r) (cp_stdout cov)).

(** Every outcome of a step of the scaffolder: it returns or raises,
    and changes the filesystem at its own path at most. *)
Definition local_step (m : M unit) (p : list string) : Prop :=
  forall st, exists res f',
    m st = (res, set_fs f' st) /\
    res <> Diverge /\
    (forall q, q <> p -> f' !! q = fs (world st) !! q).

(** The path is free or holds a directory. *)
Definition not_a_file (o : option node) : Prop :=
  match o with
  | Some Dir | None => True
  | Some _ => False
  end.

(** The paths [setup_project_structure] may create. *)
Definition scaffold_paths (st : State) : list (list string) :=
  [ child (root st) "src"; child (root st) "tests";
    child (child (root st) "src") "__init__.py";
    child (child (root st) "tests") "__init__.py" ].

(** A filesystem that is [fs (world st)] everywhere but at the paths
    the scaffolder may create. *)
Definition scaffolded_from (st : State) (f' : gmap (list string) node) : Prop :=
  forall q, ~ In q (scaffold_paths st) -> f' !! q = fs (world st) !! q.

(** The layout can be made: the project directory is there, and
    neither [src] nor [tests] is taken by a regular file. *)
Definition can_scaffold (st : State) : Prop :=
  fs (world st) !! root st = Some Dir /\
  not_a_file (fs (world st) !! child (root st) "src") /\
  not_a_file (fs (world st) !! child (root st) "tests").

(** The exception [read_requirements] raises. *)
Definition missing_requirements : exn :=
  Exn FileNotFoundError "PROJECT_REQUIREMENTS.md not found".

(** What the statements before the loop add to the trace when they
    all succeed. *)
Definition loaded_events (st : State) (req : string) : list event :=
  [ Stdout "🤖 Starting Autonomous Development Agent...";
    Stdout ("📁 Project directory: " ++ project_dir (self st));
    Stdout "✅ Project structure created";
    Stdout ("✅ Requirements loaded (" ++ str_of_int (Z.of_nat (str_len req))
            ++ " chars)") ].

Definition startup_events (st : State) (req ins : string) : list event :=
  loaded_events st req ++ send_events (iteration (self st)) (initial_prompt ins req).

(** The path holds a text file that is read as [text]. *)
Definition reads_as (o : option node) (text : string) : Prop :=
  exists content, o = Some (File content) /\ universal_newlines content = text.

(** What reading raises when the path holds something
    that is not a text file. *)
Definition unreadable (shown : string) (n : node) : exn :=
  match n with
  | Undecodable reason => Exn UnicodeDecodeError reason
  | _ => Os.os_error IsADirectoryError "[Errno 21] Is a directory" shown
  end.

(** The run can reach its loop: the layout can be made, and both
    documents are there and are read as [req] and [ins]. *)
Definition can_start (st : State) (req ins : string) : Prop :=
  can_scaffold st /\
  reads_as (fs (world st) !! requirements_path st) req /\
  reads_as (fs (world st) !! instructions_path st) ins.

(** From [st] on, every launch of the test command fails. *)
Definition never_passes (st : State) : Prop :=
  forall k, test_fails (procs (world st) (launched (world st) + k)%nat) = true.

(** A project directory that holds the two documents and nothing else;
    it is the working directory of the process. *)
Definition demo_fs : gmap (list string) node :=
  <[ ["work"] := Dir ]>
  (<[ ["work"; "PROJECT_REQUIREMENTS.md"] := File "build a calculator" ]>
  (<[ ["work"; "SYSTEM_INSTRUCTIONS.md"] := File "be careful" ]> ∅)).

(** The same directory without the requirements. *)
Definition bare_fs : gmap (list string) node :=
  <[ ["work"] := Dir ]>
  (<[ ["work"; "SYSTEM_INSTRUCTIONS.md"] := File "be careful" ]> ∅).

(** Every child process exits with code [rc]. *)
Definition always_exits (rc : Z) : nat -> proc_outcome :=
  fun _ => Finishes (Completed rc "out" "err").

(** Every launch raises [e]. *)
Definition always_raises (e : exn) : nat -> proc_outcome := fun _ => Fails e.

(** A process started in [/work] that has done nothing yet. *)
Definition demo_world (f : gmap (list string) node) (pr : nat -> proc_outcome) : World :=
  mkWorld ["work"] f pr 0 [].

(** A fresh agent for the working directory, with cap [cap]. *)
Definition demo_agent (cap : Z) : Agent :=
  {| project_dir := "."; max_iterations := cap; iteration := 0 |}.

Definition pytest_timeout : exn :=
  Exn TimeoutExpired "Command 'pytest' timed out after 60 seconds".

Definition pytest_not_found : exn :=
  Exn FileNotFoundError "[Errno 2] No such file or directory: 'pytest'".

(** The state after one call of [setup_project_structure] in the demo
    directory. *)
Definition laid_out : State :=
  snd (setup_project_structure (mkState (demo_agent 50) (demo_world demo_fs (always_exits 0)))).

(** The state of the demo run with cap 1 and failing tests, at the head
    of the loop. *)
Definition at_loop_head : State :=
  snd (startup placeholder (mkState (demo_agent 1) (demo_world demo_fs (always_exits 1)))).

(** ** Notions used in the further properties *)

(** A directory can be made at [p] by [mkdir(exist_ok=True)]: it is
    there already, or the path is free and its parent is a directory. *)
Definition creatable (f : gmap (list string) node) (p : list string) : Prop :=
  f !! p = Some Dir \/ (f !! p = None /\ f !! parent p = Some Dir).

(** [f'] is [f] with new entries at free paths, each taken from
    [news]: nothing that was there is changed or removed. *)
Definition adds_only (news : list (list string * node))
    (f f' : gmap (list string) node) : Prop :=
  forall q,
    f' !! q = f !! q \/
    (f !! q = None /\ exists n, In (q, n) news /\ f' !! q = Some n).

(** The entries [setup_project_structure] may create. *)
Definition layout_entries (st : State) : list (list string * node) :=
  [ (child (root st) "src", Dir);
    (child (root st) "tests", Dir);
    (child (child (root st) "src") "__init__.py", File "");
    (child (child (root st) "tests") "__init__.py", File "") ].

(** The state [st] after the counter has become [i], the filesystem
    [f], the number of launches [l], and [evs] has been added to the
    trace. *)
Definition evolved (st : State) (i : Z) (f : gmap (list string) node) (l : nat)
    (evs : list event) : State :=
  mkState (mkAgent (project_dir (self st)) (max_iterations (self st)) i)
    (mkWorld (cwd (world st)) f (procs (world st)) l (trace (world st) ++ evs)).

(** The seconds asked of [time.sleep] in a trace. *)
Definition time_slept (t : list event) : Z :=
  fold_right (fun ev acc => match ev with Sleep s => s + acc | _ => acc end) 0 t.

(** The output [run_tests] reports for a launch that does not pass. *)
Definition failure_output (o : proc_outcome) : string :=
  match verdict o with
  | Ret r => output r
  | _ => ""
  end.


(** The demo directory with a directory in the place of the report. *)
Definition report_dir_fs : gmap (list string) node :=
  <[ ["work"; "COMPLETION_REPORT.md"] := Dir ]> demo_fs.

(** A project in [/work/proj] that holds both documents, for a process
    whose working directory [/work] holds neither. *)
Definition nested_fs : gmap (list string) node :=
  <[ ["work"] := Dir ]>
  (<[ ["work"; "proj"] := Dir ]>
  (<[ ["work"; "proj"; "PROJECT_REQUIREMENTS.md"] := File "build a calculator" ]>
  (<[ ["work"; "proj"; "SYSTEM_INSTRUCTIONS.md"] := File "be careful" ]> ∅))).

(** The first [j] child processes exit with code 1, the later ones
    with code 0. *)
Definition passes_after (j : nat) : nat -> proc_outcome :=
  fun k =>
    if (k <? j)%nat then Finishes (Completed 1 "out" "err")
    else Finishes (Completed 0 "ok" "").

(** The first [j] child processes exit with code 1, the later launches
    raise [e]. *)
Definition raises_after (j : nat) (e : exn) : nat -> proc_outcome :=
  fun k => if (k <? j)%nat then Finishes (Completed 1 "out" "err") else Fails e.

(** The first child process exits with code 0, the later launches
    raise [e]. *)
Definition passes_then_raises (e : exn) : nat -> proc_outcome :=
  fun k => if (k <? 1)%nat then Finishes (Completed 0 "ok" "") else Fails e.

Definition user_interrupt : exn := Exn KeyboardInterrupt "".

(** The first child process exits with code 0, the later ones never
    end. *)
Definition passes_then_stays : nat -> proc_outcome :=
  fun k => if (k <? 1)%nat then Finishes (Completed 0 "ok" "") else NeverEnds.

(** No child process ever ends. *)
Definition always_stays : nat -> proc_outcome := fun _ => NeverEnds.

(** A concrete state meets [can_start], for documents without
    carriage returns. *)
Ltac starts_with req ins :=
  split;
  [ unfold can_scaffold; repeat split; try (vm_compute; reflexivity); vm_compute; exact I
  | split; [exists req | exists ins]; split; vm_compute; reflexivity ].

(** Replaces the length of every literal piece of a text by its value. *)
Ltac count_fixed :=
  repeat match goal with
    | |- context [str_len (String ?c ?s)] =>
        let n := eval vm_compute in (str_len (String c s)) in
        change (str_len (String c s)) with n
    end.

(** Two states built from the same parts are equal, the traces up to
    the bracketing of their concatenations. *)
Ltac same_state :=
  apply (f_equal2 mkState); [reflexivity |];
  apply f_equal5; try reflexivity;
  cbn; repeat rewrite <- List.app_assoc; reflexivity.

Arguments str_of_int : simpl never.
Arguments str_prefix : simpl never.
Arguments debug_prompt : simpl never.
Arguments initial_prompt : simpl never.
Arguments report_text : simpl never.
Arguments resolve : simpl never.
Arguments rule : simpl never.
Arguments run_tests : simpl never.
Arguments send_to_claude : simpl never.
Arguments generate_final_report : simpl never.
Arguments setup_project_structure : simpl never.
Arguments read_requirements : simpl never.

(** ** Basic facts *)

Lemma string_app_assoc (a b c : string) : (a ++ b) ++ c = a ++ (b ++ c).
Proof.
  induction a as [|ch a IH]; [reflexivity |].
  change (String ch ((a ++ b) ++ c) = String ch (a ++ b ++ c)).
  now rewrite IH.
Qed.

Lemma contains_app_l (s a b : string) : contains s a -> contains s (a ++ b).
Proof.
  intros (x & y & ->). exists x, (y ++ b).
  now rewrite !string_app_assoc.
Qed.

Lemma contains_app_r (s a b : string) : contains s b -> contains s (a ++ b).
Proof.
  intros (x & y & ->). exists (a ++ x), y.
  now rewrite !string_app_assoc.
Qed.

Lemma contains_refl (s : string) : contains s s.
Proof.
  exists "", "". change (s = s ++ "").
  induction s as [|c s IH]; [reflexivity |].
  change (String c s = String c (s ++ "")). now rewrite <- IH.
Qed.

Lemma run_tests_eq (st : State) :
  run_tests st = (verdict (next_outcome st), after_test_run st).
Proof.
  unfold run_tests, Os.subprocess_run, next_outcome, after_test_run, verdict.
  destruct (procs (world st) (launched (world st))) as [cp | e |]; [reflexivity | | reflexivity].
  destruct (is_TimeoutExpired e); [reflexivity |].
  destruct (is_Exception e); reflexivity.
Qed.

Lemma test_fails_verdict (o : proc_outcome) :
  test_fails o = true -> exists r, verdict o = Ret r /\ passed r = false.
Proof.
  destruct o as [cp | e |]; simpl; intros H.
  - eexists; split; [reflexivity |]. simpl.
    now destruct (cp_returncode cp =? 0).
  - rewrite H. destruct (is_TimeoutExpired e); eexists; split; reflexivity.
  - eexists; split; reflexivity.
Qed.

(** ** The test runner never throws *)


(** C5. When launching the child process of [run_tests] raises an
    [Exception] other than the timeout (the command is not found, say),
    [run_tests] returns normally: the result has [passed] false and an
    output that carries the text of the exception. *)
Theorem run_tests_launch_error (st : State) (e : exn) :
  next_outcome st = Fails e ->
  is_Exception e = true ->
  exn_cls e <> TimeoutExpired ->
  exists r st',
    run_tests st = (Ret r, st') /\
    passed r = false /\
    output r = "Error running tests: " ++ exn_str e /\
    contains (exn_str e) (output r).
Proof.
  intros Ho He Hc. rewrite run_tests_eq, Ho. unfold verdict. rewrite He.
  assert (is_TimeoutExpired e = false) as ->.
  { unfold is_TimeoutExpired. destruct (exn_cls e); congruence. }
  exists (could_not_run e), (after_test_run st).
  repeat split. apply contains_app_r, contains_refl.
Qed.

(** C10. The timeout branch and the generic branch of [run_tests]
    return the same exit code -1 and the same [passed]; their results
    differ in the output text, and in nothing else. *)
Theorem run_tests_same_sentinel (st1 st2 : State) (e1 e2 : exn) :
  next_outcome st1 = Fails e1 ->
  exn_cls e1 = TimeoutExpired ->
  next_outcome st2 = Fails e2 ->
  is_Exception e2 = true ->
  exn_cls e2 <> TimeoutExpired ->
  exists r1 r2,
    fst (run_tests st1) = Ret r1 /\
    fst (run_tests st2) = Ret r2 /\
    returncode r1 = -1 /\
    returncode r2 = -1 /\
    passed r1 = passed r2 /\
    output r1 <> output r2.
Proof.
  intros Ho1 Hc1 Ho2 He2 Hc2.
  rewrite !run_tests_eq, Ho1, Ho2. unfold verdict, is_TimeoutExpired.
  rewrite Hc1, He2.
  exists timed_out, (could_not_run e2).
  destruct (exn_cls e2); try congruence; repeat split; discriminate.
Qed.

(** ** The scaffolder *)

Lemma child_neq_last (p q : list string) (a b : string) :
  a <> b -> child p a <> child q b.
Proof. unfold child. intros Hab H. apply app_inj_tail in H as [_ H]. auto. Qed.

Lemma child_neq_deeper (p : list string) (a b c : string) :
  child p a <> child (child p b) c.
Proof.
  unfold child. intros H. apply (f_equal (@length string)) in H.
  rewrite !length_app in H. simpl in H. lia.
Qed.

Lemma parent_child (p : list string) (a : string) : parent (child p a) = p.
Proof. unfold parent, child. apply removelast_last. Qed.

Lemma mkdir_settled (d : string) (p : list string) (st : State) :
  fs (world st) !! p = Some Dir -> Os.mkdir_exist_ok d p st = (Ret tt, st).
Proof. intros H. unfold Os.mkdir_exist_ok. now rewrite H. Qed.

Lemma touch_settled (d : string) (p : list string) (st : State) (n : node) :
  fs (world st) !! p = Some n -> Os.touch d p st = (Ret tt, st).
Proof. intros H. unfold Os.touch. now rewrite H. Qed.

Lemma mkdir_cases (d : string) (p : list string) (st : State) :
  (exists e, Os.mkdir_exist_ok d p st = (Raise e, st)) \/
  (exists st', Os.mkdir_exist_ok d p st = (Ret tt, st') /\ settles is_dir p st st').
Proof.
  unfold Os.mkdir_exist_ok.
  destruct (fs (world st) !! p) as [[|c|c]|] eqn:Hp.
  - right. exists st. split; [reflexivity |].
    unfold settles, is_dir. repeat split; eauto.
  - left. eauto.
  - left. eauto.
  - destruct (Os.parent_error (fs (world st)) d p) as [e|]; [left; eauto | right].
    eexists. split; [reflexivity |].
    unfold settles, is_dir. cbn. repeat split.
    + exists Dir. split; [apply lookup_insert_eq | reflexivity].
    + intros q Hq. now apply lookup_insert_ne.
Qed.

Lemma touch_cases (d : string) (p : list string) (st : State) :
  (exists e, Os.touch d p st = (Raise e, st)) \/
  (exists st', Os.touch d p st = (Ret tt, st') /\ settles any_node p st st').
Proof.
  unfold Os.touch.
  destruct (fs (world st) !! p) as [n|] eqn:Hp.
  - right. exists st. split; [reflexivity |].
    unfold settles, any_node. repeat split; eauto.
  - destruct (Os.parent_error (fs (world st)) d p) as [e|]; [left; eauto | right].
    eexists. split; [reflexivity |].
    unfold settles, any_node. cbn. repeat split.
    + exists (File ""). split; [apply lookup_insert_eq | exact I].
    + intros q Hq. now apply lookup_insert_ne.
Qed.

Lemma settles_root (good : node -> Prop) (p : list string) (st st' : State) :
  settles good p st st' -> root st' = root st.
Proof. intros (Hs & Hc & _). unfold root. now rewrite Hs, Hc. Qed.

Lemma setup_project_structure_eq (st : State) :
  setup_project_structure st =
  scaffold (named st "src") (named st "tests")
    (path_join (named st "src") "__init__.py") (path_join (named st "tests") "__init__.py")
    (child (root st) "src") (child (root st) "tests")
    (child (child (root st) "src") "__init__.py")
    (child (child (root st) "tests") "__init__.py") st.
Proof. reflexivity. Qed.

Lemma scaffold_settled (s t si ti : string) (S T SI TI : list string) (st : State) (n1 n2 : node) :
  fs (world st) !! S = Some Dir ->
  fs (world st) !! T = Some Dir ->
  fs (world st) !! SI = Some n1 ->
  fs (world st) !! TI = Some n2 ->
  scaffold s t si ti S T SI TI st = (Ret tt, st).
Proof.
  intros HS HT HSI HTI. unfold scaffold, bind.
  rewrite (mkdir_settled s S st HS), (mkdir_settled t T st HT).
  rewrite (touch_settled si SI st n1 HSI). apply (touch_settled ti TI st n2 HTI).
Qed.

(** The state a call of [scaffold] ends in: the filesystem may have
    changed, nothing else has. *)
Lemma scaffold_frame (s t si ti : string) (S T SI TI : list string) (st : State) :
  let st' := snd (scaffold s t si ti S T SI TI st) in
  self st' = self st /\ cwd (world st') = cwd (world st) /\
  procs (world st') = procs (world st) /\
  launched (world st') = launched (world st) /\
  trace (world st') = trace (world st).
Proof.
  unfold scaffold, bind.
  destruct (mkdir_cases s S st) as [(e & ->) | (st1 & -> & H1)]; [easy |].
  destruct (mkdir_cases t T st1) as [(e & ->) | (st2 & -> & H2)];
    [destruct H1 as (? & ? & ? & ? & ? & _); easy |].
  destruct (touch_cases si SI st2) as [(e & ->) | (st3 & -> & H3)];
    [destruct H1 as (? & ? & ? & ? & ? & _), H2 as (? & ? & ? & ? & ? & _);
     cbn; repeat split; congruence |].
  destruct (touch_cases ti TI st3) as [(e & ->) | (st4 & -> & H4)];
    destruct H1 as (? & ? & ? & ? & ? & _), H2 as (? & ? & ? & ? & ? & _),
      H3 as (? & ? & ? & ? & ? & _); try destruct H4 as (? & ? & ? & ? & ? & _);
    cbn; repeat split; congruence.
Qed.

Lemma scaffold_twice (s t si ti : string) (S T SI TI : list string) (st : State) :
  S <> T -> S <> SI -> S <> TI -> T <> SI -> T <> TI -> SI <> TI ->
  scaffold s t si ti S T SI TI (snd (scaffold s t si ti S T SI TI st)) = scaffold s t si ti S T SI TI st.
Proof.
  intros nST nSSI nSTI nTSI nTTI nSITI. unfold scaffold at 2 3. unfold bind.
  destruct (mkdir_cases s S st) as [(e & E1) | (st1 & E1 & H1)]; rewrite E1; cbn.
  { unfold scaffold, bind. now rewrite E1. }
  destruct H1 as (_ & _ & _ & _ & _ & (n1 & HS1 & ->) & F1).
  destruct (mkdir_cases t T st1) as [(e & E2) | (st2 & E2 & H2)]; rewrite E2; cbn.
  { unfold scaffold, bind. now rewrite (mkdir_settled s S st1 HS1), E2. }
  destruct H2 as (_ & _ & _ & _ & _ & (n2 & HT2 & ->) & F2).
  assert (HS2 : fs (world st2) !! S = Some Dir) by (rewrite F2; auto).
  destruct (touch_cases si SI st2) as [(e & E3) | (st3 & E3 & H3)]; rewrite E3; cbn.
  { unfold scaffold, bind.
    now rewrite (mkdir_settled s S st2 HS2), (mkdir_settled t T st2 HT2), E3. }
  destruct H3 as (_ & _ & _ & _ & _ & (n3 & HSI3 & _) & F3).
  assert (HS3 : fs (world st3) !! S = Some Dir) by (rewrite F3; auto).
  assert (HT3 : fs (world st3) !! T = Some Dir) by (rewrite F3; auto).
  destruct (touch_cases ti TI st3) as [(e & E4) | (st4 & E4 & H4)]; rewrite E4; cbn.
  { unfold scaffold, bind.
    now rewrite (mkdir_settled s S st3 HS3), (mkdir_settled t T st3 HT3),
      (touch_settled si SI st3 n3 HSI3), E4. }
  destruct H4 as (_ & _ & _ & _ & _ & (n4 & HTI4 & _) & F4).
  apply (scaffold_settled s t si ti S T SI TI st4 n3 n4);
    [ rewrite F4 by auto; exact HS3
    | rewrite F4 by auto; exact HT3
    | rewrite F4 by auto; exact HSI3
    | exact HTI4 ].
Qed.

(** C8. [setup_project_structure] is idempotent: from every state, a
    second call ends as the first did (same outcome, same directories
    and files, nothing else touched), and a call on a state where the
    layout exists changes nothing. *)
Theorem setup_project_structure_idempotent (st : State) :
  setup_project_structure (snd (setup_project_structure st)) = setup_project_structure st /\
  (layout_exists st -> setup_project_structure st = (Ret tt, st)).
Proof.
  split.
  - rewrite (setup_project_structure_eq (snd _)).
    assert (Hsame : self (snd (setup_project_structure st)) = self st /\
                    cwd (world (snd (setup_project_structure st))) = cwd (world st)).
    { rewrite setup_project_structure_eq.
      destruct (scaffold_frame (named st "src") (named st "tests")
        (path_join (named st "src") "__init__.py") (path_join (named st "tests") "__init__.py")
        (child (root st) "src") (child (root st) "tests")
        (child (child (root st) "src") "__init__.py")
        (child (child (root st) "tests") "__init__.py") st) as (Hs & Hc & _).
      now split. }
    destruct Hsame as (Hs & Hc).
    assert (root (snd (setup_project_structure st)) = root st) as ->
      by (unfold root; now rewrite Hs, Hc).
    assert (forall name, named (snd (setup_project_structure st)) name = named st name) as N
      by (intros name; unfold named; now rewrite Hs).
    rewrite !N.
    rewrite setup_project_structure_eq.
    apply scaffold_twice;
      first [ apply child_neq_last; discriminate
            | apply child_neq_deeper
            | apply not_eq_sym, child_neq_deeper
            | idtac ].
    unfold child. intros H. apply app_inj_tail in H as [H _].
    apply app_inj_tail in H as [_ H]. discriminate.
  - intros (HS & HT & [n1 HSI] & [n2 HTI]).
    rewrite setup_project_structure_eq. now apply (scaffold_settled _ _ _ _ _ _ _ _ st n1 n2).
Qed.

(** ** One pass of the loop *)

Lemma send_to_claude_eq (respond : State -> string -> string) (prompt : string) (st : State) :
  send_to_claude respond prompt st =
  (Ret (respond st prompt), add_events (send_events (iteration (self st)) prompt) st).
Proof.
  unfold send_to_claude, bind, get, print, emit, ret, log, add_events, send_events.
  cbn. f_equal. same_state.
Qed.

Lemma development_pass_failed (respond : State -> string -> string) (st : State)
    (r : TestResult) :
  verdict (next_outcome st) = Ret r ->
  passed r = false ->
  development_pass respond st = (Ret None, failed_pass st r).
Proof.
  intros Hv Hp. unfold development_pass, bind, get, print, emit. cbn.
  rewrite run_tests_eq.
  change (next_outcome _) with (next_outcome st). rewrite Hv, Hp.
  rewrite send_to_claude_eq. unfold Os.sleep, emit, ret. f_equal.
  unfold failed_pass, failed_pass_events, add_events, after_test_run, next_launch, log,
    bump, set_iteration, banner, root.
  cbn. same_state.
Qed.

Lemma generate_final_report_eq (st : State) (r : TestResult) (cov : CompletedProcess) :
  next_outcome st = Finishes cov ->
  report_writable st ->
  generate_final_report r st =
  (Ret tt, reported st (report_text (iteration (self st)) (output r) (cp_stdout cov))).
Proof.
  unfold next_outcome, report_writable. intros Ho [Hfree Hroot].
  unfold generate_final_report, bind, get, Os.subprocess_run. rewrite Ho.
  unfold print, emit, Os.write_text, Os.parent_error. cbn.
  replace (parent (report_path st)) with (root st) by (symmetry; apply parent_child).
  rewrite Hroot.
  destruct (fs (world st) !! report_path st) as [[|c|c]|] eqn:Hp;
    try congruence; f_equal; unfold reported, report_events, add_events, next_launch, set_fs, log;
    cbn; same_state.
Qed.

Lemma development_pass_passed (respond : State -> string -> string) (st : State)
    (r : TestResult) (cov : CompletedProcess) :
  verdict (next_outcome st) = Ret r ->
  passed r = true ->
  procs (world st) (S (launched (world st))) = Finishes cov ->
  report_writable st ->
  development_pass respond st = (Ret (Some true), passed_pass st r cov).
Proof.
  intros Hv Hp Hcov Hw. unfold development_pass, bind, get, print, emit. cbn.
  rewrite run_tests_eq.
  change (next_outcome _) with (next_outcome st). rewrite Hv, Hp.
  match goal with
  | |- context [generate_final_report r ?X] =>
      assert (HX : X = add_events [banner (iteration (self st) + 1) (max_iterations (self st));
                                   Run pytest_argv (root st) (Some 60);
                                   Stdout "✅ ALL TESTS PASSED!"] (next_launch (bump st)))
        by (unfold add_events, after_test_run, next_launch, log, bump, set_iteration, banner,
              root; cbn; same_state);
      rewrite HX
  end.
  rewrite (generate_final_report_eq _ r cov); [reflexivity | exact Hcov | exact Hw].
Qed.

(** ** The loop *)

Lemma development_passes_exhausted (respond : State -> string -> string) (fuel : nat)
    (st : State) :
  max_iterations (self st) <= iteration (self st) ->
  development_passes respond fuel st =
  (Ret false, log (Stdout "❌ Max iterations reached. Development incomplete.") st).
Proof.
  intros H. destruct fuel; cbn;
    (destruct (Z.ltb_spec (iteration (self st)) (max_iterations (self st))); [lia | reflexivity]).
Qed.

Lemma development_passes_again (respond : State -> string -> string) (fuel : nat)
    (st : State) (r : TestResult) :
  iteration (self st) < max_iterations (self st) ->
  verdict (next_outcome st) = Ret r ->
  passed r = false ->
  development_passes respond (S fuel) st = development_passes respond fuel (failed_pass st r).
Proof.
  intros Hlt Hv Hp. cbn [development_passes].
  destruct (Z.ltb_spec (iteration (self st)) (max_iterations (self st))); [| lia].
  now rewrite (development_pass_failed respond st r Hv Hp).
Qed.

Lemma development_passes_success (respond : State -> string -> string) (fuel : nat)
    (st : State) (r : TestResult) (cov : CompletedProcess) :
  iteration (self st) < max_iterations (self st) ->
  verdict (next_outcome st) = Ret r ->
  passed r = true ->
  procs (world st) (S (launched (world st))) = Finishes cov ->
  report_writable st ->
  development_passes respond (S fuel) st = (Ret true, passed_pass st r cov).
Proof.
  intros Hlt Hv Hp Hcov Hw. cbn [development_passes].
  destruct (Z.ltb_spec (iteration (self st)) (max_iterations (self st))); [| lia].
  now rewrite (development_pass_passed respond st r cov Hv Hp Hcov Hw).
Qed.

Lemma test_executions_app (t1 t2 : list event) :
  test_executions (t1 ++ t2) = (test_executions t1 + test_executions t2)%nat.
Proof. unfold test_executions. now rewrite List.filter_app, length_app. Qed.

Lemma report_runs_app (t1 t2 : list event) :
  report_runs (t1 ++ t2) = (report_runs t1 + report_runs t2)%nat.
Proof. unfold report_runs. now rewrite List.filter_app, length_app. Qed.

Lemma writes_app (t1 t2 : list event) : writes (t1 ++ t2) = (writes t1 ++ writes t2)%list.
Proof. apply List.filter_app. Qed.

Lemma prompts_sent_app (t1 t2 : list event) :
  prompts_sent (t1 ++ t2) = (prompts_sent t1 ++ prompts_sent t2)%list.
Proof. apply List.flat_map_app. Qed.

Lemma failed_pass_readings (i cap : Z) (dir : list string) (r : TestResult) :
  let evs := failed_pass_events i cap dir r in
  test_executions evs = 1%nat /\ report_runs evs = 0%nat /\ writes evs = [] /\
  prompts_sent evs = [(i, debug_prompt i (output r))].
Proof. repeat split. Qed.

(** ** Before the loop *)

Lemma set_fs_same (st : State) : set_fs (fs (world st)) st = st.
Proof. now destruct st as [a []]. Qed.

Lemma settles_set_fs (good : node -> Prop) (p : list string) (st st' : State) :
  settles good p st st' -> st' = set_fs (fs (world st')) st.
Proof.
  destruct st as [a []], st' as [a' []]. unfold settles, set_fs. cbn.
  now intros (-> & -> & -> & -> & -> & _).
Qed.

Lemma mkdir_local (d : string) (p : list string) : local_step (Os.mkdir_exist_ok d p) p.
Proof.
  intros st. destruct (mkdir_cases d p st) as [(e & E) | (st' & E & H)].
  - exists (Raise e), (fs (world st)). rewrite set_fs_same. easy.
  - exists (Ret tt), (fs (world st')). rewrite <- (settles_set_fs _ _ _ _ H).
    repeat split; [exact E | easy | apply H].
Qed.

Lemma touch_local (d : string) (p : list string) : local_step (Os.touch d p) p.
Proof.
  intros st. destruct (touch_cases d p st) as [(e & E) | (st' & E & H)].
  - exists (Raise e), (fs (world st)). rewrite set_fs_same. easy.
  - exists (Ret tt), (fs (world st')). rewrite <- (settles_set_fs _ _ _ _ H).
    repeat split; [exact E | easy | apply H].
Qed.

Lemma scaffold_shape (s t si ti : string) (S T SI TI : list string) (st : State) :
  exists res f',
    scaffold s t si ti S T SI TI st = (res, set_fs f' st) /\
    res <> Diverge /\
    (forall q, q <> S -> q <> T -> q <> SI -> q <> TI -> f' !! q = fs (world st) !! q).
Proof.
  unfold scaffold, bind.
  destruct (mkdir_local s S st) as (r1 & f1 & -> & N1 & F1).
  destruct r1 as [[]|e|]; [| exists (Raise e), f1; repeat split; auto | easy].
  destruct (mkdir_local t T (set_fs f1 st)) as (r2 & f2 & -> & N2 & F2). cbn in F2.
  destruct r2 as [[]|e|];
    [| exists (Raise e), f2; repeat split; [easy | intros; rewrite F2, F1; auto] | easy].
  destruct (touch_local si SI (set_fs f2 (set_fs f1 st))) as (r3 & f3 & -> & N3 & F3). cbn in F3.
  destruct r3 as [[]|e|];
    [| exists (Raise e), f3; repeat split; [easy | intros; rewrite F3, F2, F1; auto] | easy].
  destruct (touch_local ti TI (set_fs f3 (set_fs f2 (set_fs f1 st)))) as (r4 & f4 & -> & N4 & F4).
  cbn in F4.
  exists r4, f4. repeat split; [exact N4 | intros; rewrite F4, F3, F2, F1; auto].
Qed.

Lemma mkdir_ok (d : string) (p : list string) (st : State) :
  not_a_file (fs (world st) !! p) ->
  fs (world st) !! parent p = Some Dir ->
  exists f',
    Os.mkdir_exist_ok d p st = (Ret tt, set_fs f' st) /\
    f' !! p = Some Dir /\
    (forall q, q <> p -> f' !! q = fs (world st) !! q).
Proof.
  intros Hp Hpar. unfold Os.mkdir_exist_ok, Os.parent_error. rewrite Hpar.
  destruct (fs (world st) !! p) as [[|c|c]|] eqn:E; [| easy | easy |].
  - exists (fs (world st)). now rewrite set_fs_same.
  - eexists. split; [reflexivity |]. split; [apply lookup_insert_eq |].
    intros q Hq. now apply lookup_insert_ne.
Qed.

Lemma touch_ok (d : string) (p : list string) (st : State) :
  fs (world st) !! parent p = Some Dir ->
  exists f',
    Os.touch d p st = (Ret tt, set_fs f' st) /\
    (forall q, q <> p -> f' !! q = fs (world st) !! q).
Proof.
  intros Hpar. unfold Os.touch, Os.parent_error. rewrite Hpar.
  destruct (fs (world st) !! p) as [n|] eqn:E.
  - exists (fs (world st)). now rewrite set_fs_same.
  - eexists. split; [reflexivity |]. intros q Hq. now apply lookup_insert_ne.
Qed.

Lemma setup_shape (st : State) :
  exists res f',
    setup_project_structure st = (res, set_fs f' st) /\
    res <> Diverge /\
    scaffolded_from st f'.
Proof.
  rewrite setup_project_structure_eq.
  destruct (scaffold_shape (named st "src") (named st "tests")
    (path_join (named st "src") "__init__.py") (path_join (named st "tests") "__init__.py")
    (child (root st) "src") (child (root st) "tests")
    (child (child (root st) "src") "__init__.py")
    (child (child (root st) "tests") "__init__.py") st) as (res & f' & E & N & F).
  exists res, f'. repeat split; [exact E | exact N |].
  intros q Hq. apply F; intros ->; apply Hq; unfold scaffold_paths; cbn; tauto.
Qed.

Lemma root_neq_child (p : list string) (a : string) : p <> child p a.
Proof.
  unfold child. intros H. apply (f_equal (@length string)) in H.
  rewrite length_app in H. simpl in H. lia.
Qed.

Lemma setup_ok (st : State) :
  can_scaffold st ->
  exists f', setup_project_structure st = (Ret tt, set_fs f' st) /\ scaffolded_from st f'.
Proof.
  intros (HR & HS & HT).
  destruct (setup_shape st) as (res & f' & E & _ & F).
  exists f'. split; [| exact F]. rewrite E. f_equal.
  rewrite setup_project_structure_eq in E. unfold scaffold, bind in E.
  destruct (mkdir_ok (named st "src") (child (root st) "src") st HS) as (f1 & E1 & D1 & F1);
    [now rewrite parent_child |].
  rewrite E1 in E.
  destruct (mkdir_ok (named st "tests") (child (root st) "tests") (set_fs f1 st))
    as (f2 & E2 & D2 & F2).
  { cbn. rewrite F1; [exact HT | apply child_neq_last; discriminate]. }
  { cbn. rewrite parent_child, F1; [exact HR | apply root_neq_child]. }
  rewrite E2 in E. cbn in F2.
  destruct (touch_ok (path_join (named st "src") "__init__.py")
              (child (child (root st) "src") "__init__.py") (set_fs f2 (set_fs f1 st)))
    as (f3 & E3 & F3).
  { cbn. rewrite parent_child, F2; [exact D1 | apply child_neq_last; discriminate]. }
  rewrite E3 in E. cbn in F3.
  destruct (touch_ok (path_join (named st "tests") "__init__.py")
              (child (child (root st) "tests") "__init__.py")
              (set_fs f3 (set_fs f2 (set_fs f1 st)))) as (f4 & E4 & F4).
  { cbn. rewrite parent_child, F3; [exact D2 | apply child_neq_deeper]. }
  rewrite E4 in E. congruence.
Qed.

Lemma requirements_not_scaffolded (st : State) :
  ~ In (requirements_path st) (scaffold_paths st).
Proof.
  unfold requirements_path, scaffold_paths. cbn.
  intros [H | [H | [H | [H | []]]]]; revert H; apply child_neq_last; discriminate.
Qed.

Lemma instructions_path_eq (st : State) :
  instructions_path st = child (cwd (world st)) "SYSTEM_INSTRUCTIONS.md".
Proof. reflexivity. Qed.

Lemma instructions_not_scaffolded (st : State) :
  ~ In (instructions_path st) (scaffold_paths st).
Proof.
  rewrite instructions_path_eq. unfold scaffold_paths. cbn.
  intros [H | [H | [H | [H | []]]]]; revert H; apply child_neq_last; discriminate.
Qed.

Lemma report_not_scaffolded (st : State) :
  ~ In (report_path st) (scaffold_paths st).
Proof.
  unfold report_path, scaffold_paths. cbn.
  intros [H | [H | [H | [H | []]]]]; revert H; apply child_neq_last; discriminate.
Qed.

Lemma root_not_scaffolded (st : State) : ~ In (root st) (scaffold_paths st).
Proof.
  unfold scaffold_paths. cbn.
  intros [H | [H | [H | [H | []]]]]; symmetry in H; revert H.
  - apply root_neq_child.
  - apply root_neq_child.
  - intros H. apply (f_equal (@length string)) in H. unfold child in H.
    rewrite !length_app in H. simpl in H. lia.
  - intros H. apply (f_equal (@length string)) in H. unfold child in H.
    rewrite !length_app in H. simpl in H. lia.
Qed.

Lemma read_requirements_eq (st : State) (req : string) :
  reads_as (fs (world st) !! requirements_path st) req ->
  read_requirements st = (Ret req, st).
Proof.
  intros (c & H & <-). unfold read_requirements, bind, get, Os.exists_, Os.read_text.
  rewrite H. rewrite bool_decide_eq_true_2 by eauto. cbn. now rewrite H.
Qed.

Lemma read_requirements_unreadable (st : State) (n : node) :
  fs (world st) !! requirements_path st = Some n ->
  (forall c, n <> File c) ->
  read_requirements st = (Raise (unreadable (named st "PROJECT_REQUIREMENTS.md") n), st).
Proof.
  intros H Hn. unfold read_requirements, bind, get, Os.exists_, Os.read_text.
  rewrite H. rewrite bool_decide_eq_true_2 by eauto. cbn. rewrite H.
  destruct n as [|c|why]; [reflexivity | now destruct (Hn c) | reflexivity].
Qed.

Lemma read_requirements_missing (st : State) :
  fs (world st) !! requirements_path st = None ->
  read_requirements st = (Raise missing_requirements, st).
Proof.
  intros H. unfold read_requirements, bind, get, Os.exists_.
  rewrite H. rewrite bool_decide_eq_false_2 by (intros [? ?]; discriminate). reflexivity.
Qed.

Lemma read_requirements_shape (st : State) :
  exists res,
    read_requirements st = (res, st) /\
    res <> Diverge /\
    (forall req, res = Ret req -> reads_as (fs (world st) !! requirements_path st) req).
Proof.
  destruct (fs (world st) !! requirements_path st) as [[|c|why]|] eqn:H.
  - eexists. rewrite (read_requirements_unreadable st Dir H) by easy. easy.
  - exists (Ret (universal_newlines c)).
    rewrite (read_requirements_eq st (universal_newlines c)) by (exists c; now rewrite H).
    repeat split; [easy |]. intros req [= <-]. now exists c.
  - eexists. rewrite (read_requirements_unreadable st (Undecodable why) H) by easy. easy.
  - exists (Raise missing_requirements). rewrite (read_requirements_missing st H).
    repeat split; easy.
Qed.

Lemma startup_eq (respond : State -> string -> string) (st : State) (req ins : string) :
  can_start st req ins ->
  exists f',
    startup respond st = (Ret tt, add_events (startup_events st req ins) (set_fs f' st)) /\
    scaffolded_from st f'.
Proof.
  intros (Hsc & Hreq & (ci & Hins & <-)).
  unfold startup, bind, get, print, emit. cbn.
  match goal with
  | |- context [setup_project_structure ?X] =>
      destruct (setup_ok X Hsc) as (f' & E & F); rewrite E
  end.
  exists f'. split; [| exact F].
  assert (Hreq' : reads_as (f' !! requirements_path st) req)
    by (rewrite (F _ (requirements_not_scaffolded st)); exact Hreq).
  rewrite (read_requirements_eq _ req) by exact Hreq'.
  unfold Os.read_text. cbn.
  rewrite (F _ (instructions_not_scaffolded st)). cbn. rewrite Hins.
  rewrite send_to_claude_eq. unfold ret. f_equal.
  unfold startup_events, loaded_events, add_events, set_fs, log. cbn. same_state.
Qed.

(** Every outcome of the statements before the loop. *)
Lemma startup_shape (respond : State -> string -> string) (st : State) :
  exists res f' evs,
    startup respond st = (res, add_events evs (set_fs f' st)) /\
    res <> Diverge /\
    scaffolded_from st f' /\
    test_executions evs = 0%nat /\ report_runs evs = 0%nat /\ writes evs = [] /\
    (fs (world st) !! requirements_path st = None ->
     exists e, res = Raise e /\
       (can_scaffold st ->
        e = missing_requirements /\
        evs = [ Stdout "🤖 Starting Autonomous Development Agent...";
                Stdout ("📁 Project directory: " ++ project_dir (self st));
                Stdout "✅ Project structure created" ])).
Proof.
  unfold startup, bind, get, print, emit. cbn.
  match goal with
  | |- context [setup_project_structure ?X] =>
      destruct (setup_shape X) as (r1 & f' & E & N1 & F); rewrite E;
      pose proof (setup_ok X) as Hok; rewrite E in Hok
  end.
  destruct r1 as [[]|e|]; [| | easy].
  2: { exists (Raise e), f', [Stdout "🤖 Starting Autonomous Development Agent...";
                             Stdout ("📁 Project directory: " ++ project_dir (self st))].
       repeat split; try easy.
       - f_equal. unfold add_events, set_fs, log. cbn. same_state.
       - intros _. exists e. split; [reflexivity |]. intros Hsc.
         destruct (Hok Hsc) as (? & ? & _). discriminate. }
  match goal with
  | |- context [read_requirements ?X] =>
      destruct (read_requirements_shape X) as (r2 & E2 & N2 & R2); rewrite E2
  end.
  change (forall req, r2 = Ret req -> reads_as (f' !! requirements_path st) req) in R2.
  rewrite (F _ (requirements_not_scaffolded st)) in R2.
  destruct r2 as [req|e|]; [| | easy].
  2: { exists (Raise e), f', [Stdout "🤖 Starting Autonomous Development Agent...";
                             Stdout ("📁 Project directory: " ++ project_dir (self st));
                             Stdout "✅ Project structure created"].
       repeat split; try easy.
       - f_equal. unfold add_events, set_fs, log. cbn. same_state.
       - intros Hnone. exists e. split; [reflexivity |]. intros _. split; [| reflexivity].
         match type of E2 with
         | read_requirements ?X = _ =>
             rewrite (read_requirements_missing X) in E2
               by (cbn; rewrite <- Hnone; apply (F _ (requirements_not_scaffolded st)))
         end.
         congruence. }
  destruct (R2 req eq_refl) as (c & Hc & _).
  change (fs (world st) !! requirements_path st = Some (File c)) in Hc.
  unfold Os.read_text. cbn.
  destruct (f' !! instructions_path st) as [[|ins|why]|] eqn:Hins; cbn.
  - eexists (Raise _), f', (loaded_events st req).
    repeat split; try easy; try reflexivity.
    + f_equal. unfold loaded_events, add_events, set_fs, log. cbn. same_state.
    + intros Hnone. congruence.
  - rewrite send_to_claude_eq.
    exists (Ret tt), f', (startup_events st req (universal_newlines ins)).
    repeat split; try easy; try reflexivity.
    + unfold ret. f_equal.
      unfold startup_events, loaded_events, add_events, set_fs, log. cbn. same_state.
    + intros Hnone. congruence.
  - eexists (Raise _), f', (loaded_events st req).
    repeat split; try easy; try reflexivity.
    + f_equal. unfold loaded_events, add_events, set_fs, log. cbn. same_state.
    + intros Hnone. congruence.
  - eexists (Raise _), f', (loaded_events st req).
    repeat split; try easy; try reflexivity.
    + f_equal. unfold loaded_events, add_events, set_fs, log. cbn. same_state.
    + intros Hnone. congruence.
Qed.

(** ** The replies of the assistant *)

Lemma send_to_claude_discarded (respond1 respond2 : State -> string -> string)
    {A : Type} (prompt : string) (k : M A) (st : State) :
  (send_to_claude respond1 prompt ;; k) st = (send_to_claude respond2 prompt ;; k) st.
Proof. unfold bind. now rewrite !send_to_claude_eq. Qed.

Lemma startup_any_reply (respond1 respond2 : State -> string -> string) (st : State) :
  startup respond1 st = startup respond2 st.
Proof.
  unfold startup, bind, get, print, emit. cbn.
  destruct (setup_project_structure _) as [[[]|e|] st1]; reflexivity.
Qed.

Lemma development_pass_any_reply (respond1 respond2 : State -> string -> string)
    (st : State) :
  development_pass respond1 st = development_pass respond2 st.
Proof.
  unfold development_pass, bind, get, print, emit. cbn.
  destruct (run_tests _) as [[r|e|] st1]; reflexivity.
Qed.

Lemma development_passes_any_reply (respond1 respond2 : State -> string -> string)
    (fuel : nat) (st : State) :
  development_passes respond1 fuel st = development_passes respond2 fuel st.
Proof.
  revert st. induction fuel as [|fuel IH]; intros st; cbn [development_passes].
  - reflexivity.
  - rewrite (development_pass_any_reply respond1 respond2 st).
    destruct (iteration (self st) <? max_iterations (self st)); [| reflexivity].
    destruct (development_pass respond2 st) as [[[b|]|e|] st1];
      first [apply IH | reflexivity].
Qed.

(** C9. The run does not depend on what [send_to_claude] returns: for
    any two ways the assistant may answer (to the initial prompt and to
    every debug prompt), the loop returns the same value and ends in
    the same state, so the counter, the test commands launched, the
    files written with their content, and the exit status agree. *)
Theorem replies_do_not_steer (respond1 respond2 : State -> string -> string)
    (agent : Agent) (w : World) (argv : list string) :
  autonomous_development_loop respond1 (mkState agent w) =
  autonomous_development_loop respond2 (mkState agent w) /\
  run_agent respond1 agent w = run_agent respond2 agent w /\
  main respond1 argv w = main respond2 argv w /\
  let st1 := snd (run_agent respond1 agent w) in
  let st2 := snd (run_agent respond2 agent w) in
  iteration (self st1) = iteration (self st2) /\
  List.filter is_test_run (trace (world st1)) = List.filter is_test_run (trace (world st2)) /\
  writes (trace (world st1)) = writes (trace (world st2)) /\
  fs (world st1) = fs (world st2).
Proof.
  assert (L : forall st, autonomous_development_loop respond1 st =
                         autonomous_development_loop respond2 st).
  { intros st. unfold autonomous_development_loop, bind.
    rewrite (startup_any_reply respond1 respond2 st).
    destruct (startup respond2 st) as [[[]|e|] st1];
      first [apply development_passes_any_reply | reflexivity]. }
  assert (R : forall a, run_agent respond1 a w = run_agent respond2 a w).
  { intros a. unfold run_agent. now rewrite L. }
  repeat split; try apply L; try apply R; cbv zeta; now rewrite R.
Qed.

(** ** The iteration counter *)

Lemma generate_final_report_self (r : TestResult) (st : State) :
  self (snd (generate_final_report r st)) = self st.
Proof.
  unfold generate_final_report, bind, get, Os.subprocess_run.
  destruct (procs (world st) (launched (world st))) as [cov|e|]; [| reflexivity | reflexivity].
  unfold print, emit, Os.write_text. cbn.
  destruct (fs (world st) !! report_path st) as [[|c|c]|]; try reflexivity;
    destruct (Os.parent_error _ _ _); reflexivity.
Qed.

Lemma development_pass_self (respond : State -> string -> string) (st : State) :
  self (snd (development_pass respond st)) = self (bump st).
Proof.
  unfold development_pass, bind, get, print, emit. cbn.
  rewrite run_tests_eq.
  destruct (verdict _) as [r|e|]; try reflexivity.
  destruct (passed r).
  - match goal with
    | |- context [generate_final_report r ?X] =>
        pose proof (generate_final_report_self r X) as H;
        destruct (generate_final_report r X) as [[[]|e|] st2]
    end; cbn in *; now rewrite H.
  - now rewrite send_to_claude_eq.
Qed.

Lemma development_passes_counter (respond : State -> string -> string) (fuel : nat)
    (st : State) :
  let st' := snd (development_passes respond fuel st) in
  max_iterations (self st') = max_iterations (self st) /\
  project_dir (self st') = project_dir (self st) /\
  iteration (self st) <= iteration (self st') /\
  (iteration (self st) <= max_iterations (self st) ->
   iteration (self st') <= max_iterations (self st)).
Proof.
  revert st. induction fuel as [|fuel IH]; intros st; cbn [development_passes];
    destruct (Z.ltb_spec (iteration (self st)) (max_iterations (self st))) as [Hlt | Hge];
    try (cbn; repeat split; (reflexivity || lia)).
  pose proof (development_pass_self respond st) as Hs.
  destruct (development_pass respond st) as [[[b|]|e|] st1]; cbn in Hs |- *;
    try (rewrite Hs; cbn; repeat split; (reflexivity || lia)).
  destruct (IH st1) as (Hm & Hd & Hi & Hb). rewrite Hs in Hm, Hd, Hi, Hb. cbn in Hm, Hd, Hi, Hb.
  cbv zeta. repeat split; try assumption; lia.
Qed.

Lemma startup_self (respond : State -> string -> string) (st : State) :
  self (snd (startup respond st)) = self st.
Proof.
  destruct (startup_shape respond st) as (res & f' & evs & E & _). now rewrite E.
Qed.

(** C7. The iteration counter of a fresh agent is zero; each pass of
    the loop adds exactly one to it, whatever else the pass does; and
    for an agent started at zero with cap [N], after any number of
    passes (also when the run has stopped earlier, by a return or by
    an exception) the counter lies between zero and [N]: it never
    exceeds the cap. [passes] bounds the passes made, so that the
    states at the head of the loop are all covered. *)
Theorem iteration_counter_bounded (respond : State -> string -> string)
    (agent : Agent) (w : World) (N : Z) (passes : nat) :
  iteration agent = 0 ->
  max_iterations agent = N ->
  0 <= N ->
  (forall dir, iteration (__init__ dir) = 0 /\ max_iterations (__init__ dir) = 50) /\
  (forall st, iteration (self (snd (development_pass respond st))) = iteration (self st) + 1) /\
  (let st' := snd ((startup respond ;; development_passes respond passes) (mkState agent w)) in
   0 <= iteration (self st') <= N) /\
  (let st' := snd (autonomous_development_loop respond (mkState agent w)) in
   0 <= iteration (self st') <= N) /\
  (forall st,
     let st' := snd (development_passes respond passes st) in
     iteration (self st) <= iteration (self st') /\
     (iteration (self st) <= max_iterations (self st) ->
      iteration (self st') <= max_iterations (self st))).
Proof.
  intros Hi Hm HN.
  assert (B : forall fuel : State -> nat,
    let st' := snd ((startup respond ;; fun st => development_passes respond (fuel st) st)
                      (mkState agent w)) in
    0 <= iteration (self st') <= N).
  { intros fuel. unfold bind.
    pose proof (startup_self respond (mkState agent w)) as Hs.
    destruct (startup respond (mkState agent w)) as [[[]|e|] st1]; cbn in Hs |- *;
      try (rewrite Hs; cbn; lia).
    destruct (development_passes_counter respond (fuel st1) st1) as (_ & _ & Hle & Hb).
    rewrite Hs in Hle, Hb. cbn in Hle, Hb. lia. }
  repeat split; try (now intros; cbn).
  - intros st. now rewrite development_pass_self.
  - apply (B (fun _ => passes)).
  - apply (B (fun _ => passes)).
  - apply (B passes_left).
  - apply (B passes_left).
  - apply development_passes_counter.
  - apply development_passes_counter.
Qed.

(** ** The loop ends *)

Lemma generate_final_report_procs (r : TestResult) (st : State) :
  procs (world (snd (generate_final_report r st))) = procs (world st).
Proof.
  unfold generate_final_report, bind, get, Os.subprocess_run.
  destruct (procs (world st) (launched (world st))) as [cov|e|]; [| reflexivity | reflexivity].
  unfold print, emit, Os.write_text. cbn.
  destruct (fs (world st) !! report_path st) as [[|c|c]|]; try reflexivity;
    destruct (Os.parent_error _ _ _); reflexivity.
Qed.

Lemma development_pass_procs (respond : State -> string -> string) (st : State) :
  procs (world (snd (development_pass respond st))) = procs (world st).
Proof.
  unfold development_pass, bind, get, print, emit. cbn.
  rewrite run_tests_eq.
  destruct (verdict _) as [r|e|]; try reflexivity.
  destruct (passed r).
  - match goal with
    | |- context [generate_final_report r ?X] =>
        pose proof (generate_final_report_procs r X) as H;
        destruct (generate_final_report r X) as [[[]|e|] st2]
    end; cbn in *; now rewrite H.
  - now rewrite send_to_claude_eq.
Qed.

(** [generate_final_report] returns or raises, unless the child it
    launches never ends: its [subprocess.run] has no timeout. *)
Lemma generate_final_report_returns (r : TestResult) (st : State) :
  fst (generate_final_report r st) = Diverge <-> next_outcome st = NeverEnds.
Proof.
  unfold generate_final_report, bind, get, Os.subprocess_run, next_outcome.
  destruct (procs (world st) (launched (world st))) as [cov|e|]; [| easy | easy].
  unfold print, emit, Os.write_text. cbn.
  destruct (fs (world st) !! report_path st) as [[|c|c]|]; try easy;
    destruct (Os.parent_error _ _ _); easy.
Qed.

Lemma verdict_returns (o : proc_outcome) : verdict o <> Diverge.
Proof.
  destruct o as [cp|e|]; cbn; [easy | | easy].
  destruct (is_TimeoutExpired e); [easy |]. destruct (is_Exception e); easy.
Qed.

(** A pass of the loop ends unless its tests pass and the coverage
    child never ends: the test run itself is cut by its timeout. *)
Lemma development_pass_returns (respond : State -> string -> string) (st : State) :
  fst (development_pass respond st) = Diverge ->
  test_fails (next_outcome st) = false /\
  procs (world st) (S (launched (world st))) = NeverEnds.
Proof.
  unfold development_pass, bind, get, print, emit. cbn.
  rewrite run_tests_eq.
  pose proof (verdict_returns (next_outcome st)) as Hv.
  pose proof (test_fails_verdict (next_outcome st)) as Hf.
  change (next_outcome _) with (next_outcome st).
  destruct (verdict (next_outcome st)) as [r|e|]; try easy.
  destruct (passed r) eqn:Hp.
  - match goal with
    | |- context [generate_final_report r ?X] =>
        pose proof (generate_final_report_returns r X) as H;
        destruct (generate_final_report r X) as [[[]|e|] st2]
    end; try easy.
    intros _. split; [| now apply H].
    destruct (test_fails (next_outcome st)); [| reflexivity].
    destruct (Hf eq_refl) as (r' & [= <-] & Hp'). congruence.
  - now rewrite send_to_claude_eq.
Qed.

Lemma development_passes_returns (respond : State -> string -> string) (fuel : nat) :
  forall st, (passes_left st <= fuel)%nat ->
    (forall k, procs (world st) k <> NeverEnds) ->
    fst (development_passes respond fuel st) <> Diverge.
Proof.
  induction fuel as [|fuel IH]; intros st Hfuel Hend; cbn [development_passes];
    destruct (Z.ltb_spec (iteration (self st)) (max_iterations (self st))) as [Hlt | Hge];
    try easy.
  - unfold passes_left in Hfuel. lia.
  - pose proof (development_pass_self respond st) as Hs.
    pose proof (development_pass_procs respond st) as Hp.
    pose proof (development_pass_returns respond st) as Hr.
    destruct (development_pass respond st) as [[[b|]|e|] st1]; try easy.
    + apply IH.
      * cbn in Hs. unfold passes_left in *. rewrite Hs. cbn. lia.
      * cbn in Hp. now rewrite Hp.
    + intros _. now apply (Hend (S (launched (world st)))), Hr.
Qed.

(** The fuel [autonomous_development_loop] gives its loop is enough:
    when no child process stays for ever, the method returns or raises
    from every state, and [main] exits. *)
Lemma autonomous_development_loop_returns (respond : State -> string -> string)
    (st : State) :
  (forall k, procs (world st) k <> NeverEnds) ->
  fst (autonomous_development_loop respond st) <> Diverge.
Proof.
  intros Hend. unfold autonomous_development_loop, bind.
  destruct (startup_shape respond st) as (res & f' & evs & E & N & _). rewrite E.
  destruct res as [[]|e|]; try easy.
  now apply development_passes_returns.
Qed.

Lemma main_exits (respond : State -> string -> string) (argv : list string) (w : World) :
  (forall k, procs w k <> NeverEnds) ->
  exists code, fst (main respond argv w) = Exit code /\ (code = 0 \/ code = 1).
Proof.
  intros Hend. unfold main, run_agent.
  match goal with
  | |- context [autonomous_development_loop respond ?X] =>
      pose proof (autonomous_development_loop_returns respond X Hend) as H;
      destruct (autonomous_development_loop respond X) as [[[|]|e|] st1]
  end; try easy.
  - exists 0. auto.
  - exists 1. auto.
  - exists 1. destruct (is_KeyboardInterrupt e); auto.
Qed.

(** ** Runs whose tests never pass *)

Lemma passes_left_failed_pass (st : State) (r : TestResult) :
  iteration (self st) < max_iterations (self st) ->
  passes_left st = S (passes_left (failed_pass st r)).
Proof. unfold passes_left. cbn. lia. Qed.

Lemma all_fail_passes (respond : State -> string -> string) (fuel : nat) :
  forall st,
    never_passes st ->
    (passes_left st <= fuel)%nat ->
    exists st' evs,
      development_passes respond fuel st = (Ret false, st') /\
      trace (world st') = (trace (world st) ++ evs)%list /\
      test_executions evs = passes_left st /\
      report_runs evs = 0%nat /\
      writes evs = [] /\
      length (prompts_sent evs) = passes_left st /\
      fs (world st') = fs (world st) /\
      launched (world st') = (launched (world st) + passes_left st)%nat.
Proof.
  induction fuel as [|fuel IH]; intros st Hnever Hfuel.
  - assert (Hdone : max_iterations (self st) <= iteration (self st))
      by (unfold passes_left in Hfuel; lia).
    rewrite (development_passes_exhausted respond 0 st Hdone).
    assert (passes_left st = 0%nat) as -> by lia.
    eexists _, [_]. repeat split; try reflexivity. cbn. lia.
  - destruct (Z.lt_ge_cases (iteration (self st)) (max_iterations (self st))) as [Hlt | Hdone].
    + pose proof (Hnever 0%nat) as H0. rewrite Nat.add_0_r in H0.
      destruct (test_fails_verdict _ H0) as (r & Hv & Hp).
      rewrite (development_passes_again respond fuel st r Hlt Hv Hp).
      pose proof (passes_left_failed_pass st r Hlt) as Hleft.
      destruct (IH (failed_pass st r)) as (st' & evs & E & Ht & Hx & Hr & Hw & Hs & Hf & Hl).
      { intros k. specialize (Hnever (S k)). cbn.
        now replace (S (launched (world st) + k)) with (launched (world st) + S k)%nat by lia. }
      { lia. }
      exists st',
        (failed_pass_events (iteration (self st) + 1) (max_iterations (self st)) (root st) r
         ++ evs)%list.
      split; [exact E |]. rewrite Ht. cbn [failed_pass add_events world trace].
      rewrite test_executions_app, report_runs_app, writes_app, prompts_sent_app, length_app.
      destruct (failed_pass_readings (iteration (self st) + 1) (max_iterations (self st))
                  (root st) r) as (-> & -> & -> & ->).
      rewrite Hx, Hr, Hw, Hs, Hf, Hl, Hleft. cbn.
      repeat split; try reflexivity; try lia.
      now rewrite <- List.app_assoc.
    + rewrite (development_passes_exhausted respond (S fuel) st Hdone).
      assert (passes_left st = 0%nat) as -> by (unfold passes_left; lia).
      eexists _, [_]. repeat split; try reflexivity. cbn. lia.
Qed.

(** C1. A run that reaches its loop with the counter at zero and cap
    [N], and whose test command never succeeds, launches the test
    command exactly [N] times and then returns [False]: the process
    exits with code 1, the coverage command of [generate_final_report]
    is never launched, no file is written, and the place of the report
    on disk is as it was. *)
Theorem exhausted_after_cap (respond : State -> string -> string)
    (agent : Agent) (w : World) (req ins : string) (N : Z) :
  iteration agent = 0 ->
  max_iterations agent = N ->
  0 <= N ->
  can_start (mkState agent w) req ins ->
  never_passes (mkState agent w) ->
  exists st' evs,
    autonomous_development_loop respond (mkState agent w) = (Ret false, st') /\
    run_agent respond agent w = (Exit 1, st') /\
    trace (world st') = (trace w ++ evs)%list /\
    test_executions evs = Z.to_nat N /\
    report_runs evs = 0%nat /\
    writes evs = [] /\
    fs (world st') !! report_path (mkState agent w) = fs w !! report_path (mkState agent w).
Proof.
  intros Hi Hm HN Hstart Hnever.
  destruct (startup_eq respond _ req ins Hstart) as (f' & E & F).
  set (st1 := add_events (startup_events (mkState agent w) req ins)
                (set_fs f' (mkState agent w))) in E.
  assert (Hleft : passes_left st1 = Z.to_nat N)
    by (unfold passes_left; cbn; rewrite Hi, Hm; f_equal; lia).
  destruct (all_fail_passes respond (passes_left st1) st1)
    as (st' & evs & E' & Ht & Hx & Hr & Hw & _ & Hf & _); [exact Hnever | lia |].
  assert (L : autonomous_development_loop respond (mkState agent w) = (Ret false, st'))
    by (unfold autonomous_development_loop, bind; now rewrite E).
  exists st', (startup_events (mkState agent w) req ins ++ evs)%list.
  split; [exact L |]. split; [unfold run_agent; now rewrite L |].
  rewrite test_executions_app, report_runs_app, writes_app, Hx, Hr, Hw, Hf, Ht, Hleft.
  repeat split.
  - cbn. now rewrite <- List.app_assoc.
  - cbn. apply (F _ (report_not_scaffolded (mkState agent w))).
Qed.

(** ** Runs whose first test run passes *)

Lemma report_mentions (i : Z) (test_output coverage : string) :
  contains ("Total iterations: " ++ str_of_int i) (report_text i test_output coverage) /\
  contains test_output (report_text i test_output coverage) /\
  contains coverage (report_text i test_output coverage).
Proof.
  unfold report_text. repeat split.
  - do 4 apply contains_app_r.
    eexists "

", _. rewrite string_app_assoc. reflexivity.
  - do 7 apply contains_app_r. apply contains_app_l, contains_refl.
  - do 9 apply contains_app_r. apply contains_app_l, contains_refl.
Qed.

(** C2. A run that reaches its loop with the counter at zero and a
    positive cap, and whose first test run exits with code 0, makes
    one pass and returns [True] (exit code 0), provided the coverage
    command finishes (with any exit code) and the place of the report
    is not taken by a directory. The test command was launched once,
    the counter is 1, and the one file written is the report, whose
    text contains the iteration count and the output captured from the
    test run. *)
Theorem first_pass_success (respond : State -> string -> string)
    (agent : Agent) (w : World) (req ins out err : string) (cov : CompletedProcess) :
  iteration agent = 0 ->
  0 < max_iterations agent ->
  can_start (mkState agent w) req ins ->
  procs w (launched w) = Finishes (Completed 0 out err) ->
  procs w (S (launched w)) = Finishes cov ->
  fs w !! report_path (mkState agent w) <> Some Dir ->
  let report := report_text 1 (out ++ err) (cp_stdout cov) in
  exists st' evs,
    autonomous_development_loop respond (mkState agent w) = (Ret true, st') /\
    run_agent respond agent w = (Exit 0, st') /\
    iteration (self st') = 1 /\
    trace (world st') = (trace w ++ evs)%list /\
    test_executions evs = 1%nat /\
    writes evs = [WriteFile (report_path (mkState agent w)) report] /\
    fs (world st') !! report_path (mkState agent w) = Some (File report) /\
    contains "iterations: 1" report /\
    contains out report /\
    contains (out ++ err) report.
Proof.
  intros Hi Hm Hstart Hrun Hcov Hfree report.
  destruct (startup_eq respond _ req ins Hstart) as (f' & E & F).
  set (st0 := mkState agent w) in *.
  set (st1 := add_events (startup_events st0 req ins) (set_fs f' st0)) in E.
  set (r := {| passed := true; output := out ++ err; returncode := 0 |}).
  assert (Hv : verdict (next_outcome st1) = Ret r)
    by (unfold next_outcome; cbn; now rewrite Hrun).
  assert (Hw : report_writable st1).
  { destruct Hstart as ((HR & _) & _). split.
    - change (f' !! report_path st0 <> Some Dir).
      now rewrite (F _ (report_not_scaffolded st0)).
    - change (f' !! root st0 = Some Dir).
      now rewrite (F _ (root_not_scaffolded st0)). }
  assert (Hfuel : exists n, passes_left st1 = S n).
  { exists (Nat.pred (passes_left st1)). unfold passes_left. cbn. lia. }
  destruct Hfuel as (n & Hn).
  assert (L : autonomous_development_loop respond st0 = (Ret true, passed_pass st1 r cov)).
  { unfold autonomous_development_loop, bind. rewrite E, Hn.
    apply development_passes_success; try assumption; try reflexivity.
    cbn. lia. }
  exists (passed_pass st1 r cov),
    (startup_events st0 req ins
     ++ [banner 1 (max_iterations agent); Run pytest_argv (root st0) (Some 60);
         Stdout "✅ ALL TESTS PASSED!"]
     ++ report_events (root st0) (report_path st0) report)%list.
  split; [exact L |]. split; [unfold run_agent; fold st0; now rewrite L |].
  assert (Hone : iteration (self st1) + 1 = 1) by (cbn; lia).
  repeat split.
  - cbn. lia.
  - unfold passed_pass, reported. rewrite Hone. cbn. now rewrite <- !List.app_assoc.
  - unfold passed_pass. rewrite Hone. apply lookup_insert_eq.
  - destruct (report_mentions 1 (out ++ err) (cp_stdout cov)) as ((a & b & H) & _).
    exists (a ++ "Total "), b. subst report. rewrite H.
    rewrite !string_app_assoc. reflexivity.
  - destruct (contains_app_l out out err (contains_refl out)) as (a & b & H).
    destruct (report_mentions 1 (out ++ err) (cp_stdout cov)) as (_ & (c & d & H') & _).
    exists (c ++ a), (b ++ d). subst report. rewrite H' at 1. rewrite H at 1.
    now rewrite !string_app_assoc.
  - apply report_mentions.
Qed.

(** ** Runs without a requirements file *)

(** C6. When [PROJECT_REQUIREMENTS.md] is absent, [read_requirements]
    raises [FileNotFoundError], and the run ends with exit code 1
    before any test run: no test command and no coverage command is
    launched, no file is written, the place of the report is as it was.
    When the layout could be made, the error that reaches [main] and is
    printed there is the one [read_requirements] raised. *)
Theorem missing_requirements_aborts (respond : State -> string -> string)
    (agent : Agent) (w : World) :
  fs w !! requirements_path (mkState agent w) = None ->
  read_requirements (mkState agent w) = (Raise missing_requirements, mkState agent w) /\
  exists st' evs,
    run_agent respond agent w = (Exit 1, st') /\
    trace (world st') = (trace w ++ evs)%list /\
    test_executions evs = 0%nat /\
    report_runs evs = 0%nat /\
    writes evs = [] /\
    launched (world st') = launched w /\
    fs (world st') !! report_path (mkState agent w) = fs w !! report_path (mkState agent w) /\
    (can_scaffold (mkState agent w) ->
     fst (autonomous_development_loop respond (mkState agent w)) = Raise missing_requirements /\
     evs = [ Stdout "🤖 Starting Autonomous Development Agent...";
             Stdout ("📁 Project directory: " ++ project_dir agent);
             Stdout "✅ Project structure created";
             Stdout ("

❌ Error: " ++ "PROJECT_REQUIREMENTS.md not found");
             Traceback missing_requirements ]).
Proof.
  intros Hnone. split; [now apply read_requirements_missing |].
  set (st0 := mkState agent w) in *.
  destruct (startup_shape respond st0) as (res & f' & evs & E & _ & F & Hx & Hr & Hw & Hmiss).
  destruct (Hmiss Hnone) as (e & -> & Hsc).
  assert (L : autonomous_development_loop respond st0
              = (Raise e, add_events evs (set_fs f' st0)))
    by (unfold autonomous_development_loop, bind; now rewrite E).
  unfold run_agent. fold st0. rewrite L.
  destruct (is_KeyboardInterrupt e) eqn:Hk.
  - eexists _, (evs ++ [_])%list. split; [reflexivity |].
    rewrite test_executions_app, report_runs_app, writes_app, Hx, Hr, Hw.
    repeat split; try reflexivity;
      try (cbn; rewrite <- ?List.app_assoc; reflexivity);
      try (cbn; apply (F _ (report_not_scaffolded st0))).
    all: destruct (Hsc H) as (-> & _); discriminate.
  - eexists _, (evs ++ [_; _])%list. split; [reflexivity |].
    rewrite test_executions_app, report_runs_app, writes_app, Hx, Hr, Hw.
    repeat split; try reflexivity;
      try (cbn; rewrite <- ?List.app_assoc; reflexivity);
      try (cbn; apply (F _ (report_not_scaffolded st0))).
    all: destruct (Hsc H) as (-> & ->); rewrite ?L; reflexivity.
Qed.

(** ** After a failed test run *)

(** C3, as the code has it. A pass whose test run fails always sends a
    debug prompt built from the output of that run and from the
    counter, then sleeps, whatever the counter is: there is no
    comparison with the cap between the test run and the prompt. When
    the counter has reached the cap in this pass, the loop then prints
    that the iterations are used up and returns [False] without
    launching or writing anything more; when it has not, the loop goes
    on from the state the pass left. *)
Theorem debug_prompt_after_every_failure (respond : State -> string -> string)
    (st : State) (r : TestResult) (fuel : nat) :
  iteration (self st) < max_iterations (self st) ->
  verdict (next_outcome st) = Ret r ->
  passed r = false ->
  let i := iteration (self st) + 1 in
  exists st',
    development_pass respond st = (Ret None, st') /\
    iteration (self st') = i /\
    trace (world st') =
      (trace (world st)
       ++ [banner i (max_iterations (self st)); Run pytest_argv (root st) (Some 60)]
       ++ send_events i (debug_prompt i (output r))
       ++ [Sleep 2])%list /\
    (i = max_iterations (self st) ->
     development_passes respond (S fuel) st =
     (Ret false, log (Stdout "❌ Max iterations reached. Development incomplete.") st')) /\
    (i < max_iterations (self st) ->
     development_passes respond (S fuel) st = development_passes respond fuel st').
Proof.
  intros Hlt Hv Hp i. exists (failed_pass st r).
  split; [now apply development_pass_failed |].
  split; [reflexivity |]. split; [reflexivity |].
  rewrite (development_passes_again respond fuel st r Hlt Hv Hp).
  split; [| reflexivity].
  intros Hcap. apply development_passes_exhausted. cbn. lia.
Qed.

(** ** Concrete runs *)


Lemma run_tests_launch_error_witness :
  exists r st',
    run_tests (mkState (demo_agent 50) (demo_world demo_fs (always_raises pytest_not_found)))
    = (Ret r, st') /\
    passed r = false /\
    output r = "Error running tests: " ++ exn_str pytest_not_found /\
    contains (exn_str pytest_not_found) (output r).
Proof.
  apply (run_tests_launch_error
           (mkState (demo_agent 50) (demo_world demo_fs (always_raises pytest_not_found)))
           pytest_not_found); [reflexivity | reflexivity | discriminate].
Defined.

Lemma run_tests_same_sentinel_witness :
  exists r1 r2,
    fst (run_tests (mkState (demo_agent 50)
                      (demo_world demo_fs (always_raises pytest_timeout)))) = Ret r1 /\
    fst (run_tests (mkState (demo_agent 50)
                      (demo_world demo_fs (always_raises pytest_not_found)))) = Ret r2 /\
    returncode r1 = -1 /\
    returncode r2 = -1 /\
    passed r1 = passed r2 /\
    output r1 <> output r2.
Proof.
  apply (run_tests_same_sentinel
           (mkState (demo_agent 50) (demo_world demo_fs (always_raises pytest_timeout)))
           (mkState (demo_agent 50) (demo_world demo_fs (always_raises pytest_not_found)))
           pytest_timeout pytest_not_found);
    [reflexivity | reflexivity | reflexivity | reflexivity | discriminate].
Defined.

Lemma setup_project_structure_idempotent_witness :
  layout_exists laid_out /\ setup_project_structure laid_out = (Ret tt, laid_out).
Proof.
  assert (H : layout_exists laid_out).
  { unfold layout_exists. repeat split; try (vm_compute; reflexivity);
      eexists; vm_compute; reflexivity. }
  split; [exact H |].
  exact (proj2 (setup_project_structure_idempotent laid_out) H).
Defined.

Lemma iteration_counter_bounded_witness :
  let st' := snd (autonomous_development_loop placeholder
                    (mkState (demo_agent 3) (demo_world demo_fs (always_exits 1)))) in
  0 <= iteration (self st') <= 3.
Proof.
  apply (iteration_counter_bounded placeholder (demo_agent 3)
           (demo_world demo_fs (always_exits 1)) 3 0); [reflexivity | reflexivity | lia].
Defined.

Lemma demo_can_start (cap : Z) (pr : nat -> proc_outcome) :
  can_start (mkState (demo_agent cap) (demo_world demo_fs pr))
    "build a calculator" "be careful".
Proof. starts_with "build a calculator" "be careful". Defined.

Lemma exhausted_after_cap_witness :
  exists st' evs,
    autonomous_development_loop placeholder
      (mkState (demo_agent 3) (demo_world demo_fs (always_exits 1))) = (Ret false, st') /\
    run_agent placeholder (demo_agent 3) (demo_world demo_fs (always_exits 1)) = (Exit 1, st') /\
    trace (world st') = ([] ++ evs)%list /\
    test_executions evs = 3%nat /\
    report_runs evs = 0%nat /\
    writes evs = [] /\
    fs (world st') !! ["work"; "COMPLETION_REPORT.md"] = None.
Proof.
  apply (exhausted_after_cap placeholder (demo_agent 3) (demo_world demo_fs (always_exits 1))
           "build a calculator" "be careful" 3);
    [reflexivity | reflexivity | lia | apply demo_can_start | intros k; reflexivity].
Defined.

Lemma first_pass_success_witness :
  let report := report_text 1 ("out" ++ "err") "out" in
  exists st' evs,
    autonomous_development_loop placeholder
      (mkState (demo_agent 50) (demo_world demo_fs (always_exits 0))) = (Ret true, st') /\
    run_agent placeholder (demo_agent 50) (demo_world demo_fs (always_exits 0)) = (Exit 0, st') /\
    iteration (self st') = 1 /\
    trace (world st') = ([] ++ evs)%list /\
    test_executions evs = 1%nat /\
    writes evs = [WriteFile ["work"; "COMPLETION_REPORT.md"] report] /\
    fs (world st') !! ["work"; "COMPLETION_REPORT.md"] = Some (File report) /\
    contains "iterations: 1" report /\
    contains "out" report /\
    contains ("out" ++ "err") report.
Proof.
  apply (first_pass_success placeholder (demo_agent 50) (demo_world demo_fs (always_exits 0))
           "build a calculator" "be careful" "out" "err" (Completed 0 "out" "err"));
    [reflexivity | reflexivity | apply demo_can_start | reflexivity | reflexivity
    | vm_compute; discriminate].
Defined.

(** C2, as the claim has it, fails. In the demo project with a
    directory in the place of the report, the test command exits with
    code 0 on the first iteration, and every later command does too;
    yet the loop does not return [True]: opening the report raises,
    the run ends with exit code 1 and no report is written. The same
    happens when the user interrupts the coverage command that
    [generate_final_report] launches after the tests have passed. *)
Lemma first_pass_without_report :
  let blocked := demo_world report_dir_fs (always_exits 0) in
  let interrupted := demo_world demo_fs (passes_then_raises user_interrupt) in
  (procs blocked 0 = Finishes (Completed 0 "out" "err") /\
   fst (autonomous_development_loop placeholder (mkState (demo_agent 50) blocked))
   = Raise (Exn IsADirectoryError "[Errno 21] Is a directory: 'COMPLETION_REPORT.md'") /\
   fst (run_agent placeholder (demo_agent 50) blocked) = Exit 1 /\
   test_executions (trace (world (snd (run_agent placeholder (demo_agent 50) blocked))))
   = 1%nat /\
   writes (trace (world (snd (run_agent placeholder (demo_agent 50) blocked)))) = [] /\
   fs (world (snd (run_agent placeholder (demo_agent 50) blocked)))
     !! ["work"; "COMPLETION_REPORT.md"] = Some Dir) /\
  (procs interrupted 0 = Finishes (Completed 0 "ok" "") /\
   fst (autonomous_development_loop placeholder (mkState (demo_agent 50) interrupted))
   = Raise user_interrupt /\
   fst (run_agent placeholder (demo_agent 50) interrupted) = Exit 1 /\
   test_executions (trace (world (snd (run_agent placeholder (demo_agent 50) interrupted))))
   = 1%nat /\
   writes (trace (world (snd (run_agent placeholder (demo_agent 50) interrupted)))) = [] /\
   fs (world (snd (run_agent placeholder (demo_agent 50) interrupted)))
     !! ["work"; "COMPLETION_REPORT.md"] = None).
Proof. vm_compute. repeat split. Qed.

Lemma missing_requirements_aborts_witness :
  exists st' evs,
    run_agent placeholder (demo_agent 50) (demo_world bare_fs (always_exits 0)) = (Exit 1, st') /\
    trace (world st') = ([] ++ evs)%list /\
    test_executions evs = 0%nat /\
    report_runs evs = 0%nat /\
    writes evs = [] /\
    launched (world st') = 0%nat /\
    fs (world st') !! ["work"; "COMPLETION_REPORT.md"] = None /\
    (can_scaffold (mkState (demo_agent 50) (demo_world bare_fs (always_exits 0))) ->
     fst (autonomous_development_loop placeholder
            (mkState (demo_agent 50) (demo_world bare_fs (always_exits 0))))
     = Raise missing_requirements /\
     evs = [ Stdout "🤖 Starting Autonomous Development Agent...";
             Stdout ("📁 Project directory: " ++ ".");
             Stdout "✅ Project structure created";
             Stdout ("

❌ Error: " ++ "PROJECT_REQUIREMENTS.md not found");
             Traceback missing_requirements ]).
Proof.
  apply (missing_requirements_aborts placeholder (demo_agent 50)
           (demo_world bare_fs (always_exits 0))).
  vm_compute. reflexivity.
Defined.

Lemma debug_prompt_after_every_failure_witness :
  exists st',
    development_pass placeholder at_loop_head = (Ret None, st') /\
    iteration (self st') = 1 /\
    trace (world st') =
      (trace (world at_loop_head)
       ++ [banner 1 1; Run pytest_argv ["work"] (Some 60)]
       ++ send_events 1 (debug_prompt 1 "outerr")
       ++ [Sleep 2])%list /\
    (1 = 1 ->
     development_passes placeholder 1 at_loop_head =
     (Ret false, log (Stdout "❌ Max iterations reached. Development incomplete.") st')) /\
    (1 < 1 ->
     development_passes placeholder 1 at_loop_head = development_passes placeholder 0 st').
Proof.
  apply (debug_prompt_after_every_failure placeholder at_loop_head
           {| passed := false; output := "outerr"; returncode := 1 |} 0);
    [vm_compute; reflexivity | vm_compute; reflexivity | reflexivity].
Defined.

(** C3, as the claim has it, fails: in the run of the demo project with
    cap 1 and a test command that exits with code 1, the one test run
    fails when the counter equals the cap, and a debug prompt is sent
    all the same (after the initial prompt, with the counter at 1)
    before the run ends with exit code 1. *)
Lemma debug_prompt_sent_at_cap :
  let run := run_agent placeholder (demo_agent 1) (demo_world demo_fs (always_exits 1)) in
  fst run = Exit 1 /\
  max_iterations (self (snd run)) = 1 /\
  iteration (self (snd run)) = 1 /\
  test_executions (trace (world (snd run))) = 1%nat /\
  prompts_sent (trace (world (snd run))) =
    [ (0, initial_prompt "be careful" "build a calculator");
      (1, debug_prompt 1 "outerr") ].
Proof. vm_compute. repeat split. Qed.

(** ** Further properties of the scaffolder *)

Lemma adds_only_refl (news : list (list string * node)) (f : gmap (list string) node) :
  adds_only news f f.
Proof. intros q. now left. Qed.

Lemma adds_only_trans (news : list (list string * node))
    (f1 f2 f3 : gmap (list string) node) :
  adds_only news f1 f2 -> adds_only news f2 f3 -> adds_only news f1 f3.
Proof.
  intros H12 H23 q.
  destruct (H12 q) as [E12 | (N1 & n & Hin & E12)], (H23 q) as [E23 | (N2 & m & Hin' & E23)].
  - left. congruence.
  - right. split; [congruence |]. eauto.
  - right. split; [exact N1 |]. exists n. split; [exact Hin | congruence].
  - congruence.
Qed.

Lemma adds_only_insert (news : list (list string * node)) (f : gmap (list string) node)
    (p : list string) (n : node) :
  f !! p = None -> In (p, n) news -> adds_only news f (<[p := n]> f).
Proof.
  intros Hfree Hin q. destruct (decide (p = q)) as [<- | Hne].
  - right. split; [exact Hfree |]. exists n. split; [exact Hin | apply lookup_insert_eq].
  - left. now apply lookup_insert_ne.
Qed.

Lemma mkdir_adds (news : list (list string * node)) (d : string) (p : list string)
    (st : State) :
  In (p, Dir) news ->
  adds_only news (fs (world st)) (fs (world (snd (Os.mkdir_exist_ok d p st)))).
Proof.
  intros Hin. unfold Os.mkdir_exist_ok.
  destruct (fs (world st) !! p) as [[|c|c]|] eqn:Hp; try apply adds_only_refl.
  destruct (Os.parent_error _ _ _); [apply adds_only_refl |].
  cbn. now apply adds_only_insert.
Qed.

Lemma touch_adds (news : list (list string * node)) (d : string) (p : list string)
    (st : State) :
  In (p, File "") news ->
  adds_only news (fs (world st)) (fs (world (snd (Os.touch d p st)))).
Proof.
  intros Hin. unfold Os.touch.
  destruct (fs (world st) !! p) as [n|] eqn:Hp; try apply adds_only_refl.
  destruct (Os.parent_error _ _ _); [apply adds_only_refl |].
  cbn. now apply adds_only_insert.
Qed.

Lemma scaffold_adds (news : list (list string * node)) (s t si ti : string)
    (S T SI TI : list string) (st : State) :
  In (S, Dir) news -> In (T, Dir) news -> In (SI, File "") news -> In (TI, File "") news ->
  adds_only news (fs (world st)) (fs (world (snd (scaffold s t si ti S T SI TI st)))).
Proof.
  intros HS HT HSI HTI. unfold scaffold, bind.
  pose proof (mkdir_adds news s S st HS) as A1.
  destruct (Os.mkdir_exist_ok s S st) as [[[]|e|] st1]; try exact A1.
  pose proof (mkdir_adds news t T st1 HT) as A2. cbn in A1.
  destruct (Os.mkdir_exist_ok t T st1) as [[[]|e|] st2];
    try exact (adds_only_trans _ _ _ _ A1 A2).
  pose proof (touch_adds news si SI st2 HSI) as A3. cbn in A2.
  destruct (Os.touch si SI st2) as [[[]|e|] st3];
    try exact (adds_only_trans _ _ _ _ A1 (adds_only_trans _ _ _ _ A2 A3)).
  pose proof (touch_adds news ti TI st3 HTI) as A4. cbn in A3.
  exact (adds_only_trans _ _ _ _ A1
           (adds_only_trans _ _ _ _ A2 (adds_only_trans _ _ _ _ A3 A4))).
Qed.

Lemma setup_adds_only (st : State) :
  adds_only (layout_entries st) (fs (world st))
    (fs (world (snd (setup_project_structure st)))).
Proof.
  rewrite setup_project_structure_eq.
  apply scaffold_adds; unfold layout_entries; cbn; tauto.
Qed.

(** X1. [setup_project_structure] only adds: whatever its outcome,
    every path that held something before holds the same afterwards
    (a marker file that exists keeps its content), and a path that is
    new is one of the two directories, made as a directory, or one of
    the two marker files, made empty. *)
Theorem setup_project_structure_only_adds (st : State) :
  let st' := snd (setup_project_structure st) in
  adds_only (layout_entries st) (fs (world st)) (fs (world st')) /\
  (forall q n, fs (world st) !! q = Some n -> fs (world st') !! q = Some n).
Proof.
  pose proof (setup_adds_only st) as A.
  split; [exact A |].
  intros q n Hq. destruct (A q) as [E | (N & _)]; congruence.
Qed.

Lemma creatable_dec (f : gmap (list string) node) (p : list string) :
  creatable f p \/ ~ creatable f p.
Proof.
  unfold creatable.
  destruct (f !! p) as [[|c|c]|];
    [now left; left | right; intros [? | [? _]]; easy | right; intros [? | [? _]]; easy |].
  destruct (f !! parent p) as [[|c|c]|]; [left; right; easy | | |];
    right; intros [? | [_ ?]]; easy.
Qed.

Lemma mkdir_creatable (d : string) (p : list string) (st : State) :
  creatable (fs (world st)) p ->
  exists f',
    Os.mkdir_exist_ok d p st = (Ret tt, set_fs f' st) /\
    f' !! p = Some Dir /\
    (forall q, q <> p -> f' !! q = fs (world st) !! q).
Proof.
  intros [Hd | [Hn Hpar]]; unfold Os.mkdir_exist_ok, Os.parent_error.
  - rewrite Hd. exists (fs (world st)). now rewrite set_fs_same.
  - rewrite Hn, Hpar. eexists. split; [reflexivity |]. split; [apply lookup_insert_eq |].
    intros q Hq. now apply lookup_insert_ne.
Qed.

Lemma absent_error_is_Exception (f : gmap (list string) node) (d : string)
    (p : list string) :
  is_Exception (Os.absent_error f d p) = true.
Proof.
  unfold Os.absent_error.
  destruct (f !! parent p) as [[| |]|]; try reflexivity.
  now destruct (Os.meets_file f [] p).
Qed.

Lemma mkdir_not_creatable (d : string) (p : list string) (st : State) :
  ~ creatable (fs (world st)) p ->
  exists e, Os.mkdir_exist_ok d p st = (Raise e, st) /\ is_Exception e = true.
Proof.
  intros Hn. unfold creatable in Hn. unfold Os.mkdir_exist_ok, Os.parent_error.
  destruct (fs (world st) !! p) as [[|c|c]|]; [tauto | eauto | eauto |].
  pose proof (absent_error_is_Exception (fs (world st)) d p) as Ha.
  destruct (fs (world st) !! parent p) as [[|c|c]|]; [tauto | eauto | eauto | eauto].
Qed.

Lemma touch_creates (d : string) (p : list string) (st : State) :
  fs (world st) !! parent p = Some Dir ->
  exists f',
    Os.touch d p st = (Ret tt, set_fs f' st) /\
    is_Some (f' !! p) /\
    (forall q n, fs (world st) !! q = Some n -> f' !! q = Some n).
Proof.
  intros Hpar. unfold Os.touch, Os.parent_error. rewrite Hpar.
  destruct (fs (world st) !! p) as [n|] eqn:E.
  - exists (fs (world st)). rewrite set_fs_same. eauto.
  - eexists. split; [reflexivity |]. split; [rewrite lookup_insert_eq; eauto |].
    intros q n Hq. rewrite lookup_insert_ne; [exact Hq | congruence].
Qed.

Lemma scaffold_outcome (s t si ti : string) (R S T SI TI : list string) (st : State) :
  parent S = R -> parent T = R -> parent SI = S -> parent TI = T ->
  R <> S -> S <> T ->
  (creatable (fs (world st)) S /\ creatable (fs (world st)) T /\
   exists f', scaffold s t si ti S T SI TI st = (Ret tt, set_fs f' st) /\
     f' !! S = Some Dir /\ f' !! T = Some Dir /\ is_Some (f' !! SI) /\ is_Some (f' !! TI))
  \/
  (~ (creatable (fs (world st)) S /\ creatable (fs (world st)) T) /\
   exists e st', scaffold s t si ti S T SI TI st = (Raise e, st') /\ is_Exception e = true).
Proof.
  intros pS pT pSI pTI nRS nST. unfold scaffold, bind.
  destruct (creatable_dec (fs (world st)) S) as [CS | NS].
  2: { right. split; [tauto |].
       destruct (mkdir_not_creatable s S st NS) as (e & -> & He). eauto. }
  destruct (mkdir_creatable s S st CS) as (f1 & -> & D1 & F1).
  assert (CT : creatable (fs (world st)) T <-> creatable f1 T).
  { unfold creatable. rewrite pT, !F1 by congruence. tauto. }
  destruct (creatable_dec (fs (world st)) T) as [CT' | NT].
  2: { right. split; [tauto |].
       destruct (mkdir_not_creatable t T (set_fs f1 st)) as (e & -> & He); [cbn; tauto |].
       eauto. }
  destruct (mkdir_creatable t T (set_fs f1 st)) as (f2 & -> & D2 & F2); [cbn; tauto |].
  cbn in F2.
  assert (D1' : f2 !! S = Some Dir) by (rewrite F2; auto).
  destruct (touch_creates si SI (set_fs f2 (set_fs f1 st))) as (f3 & -> & I3 & P3).
  { cbn. now rewrite pSI. }
  cbn in P3.
  destruct (touch_creates ti TI (set_fs f3 (set_fs f2 (set_fs f1 st))))
    as (f4 & E4 & I4 & P4).
  { cbn. rewrite pTI. auto. }
  cbn in P4. rewrite E4.
  left. split; [exact CS |]. split; [exact CT' |].
  exists f4. split; [reflexivity |].
  destruct I3 as [n3 I3]. repeat split; eauto.
Qed.

(** X2. [setup_project_structure] returns normally exactly when both
    directories can be made (each is there already as a directory, or
    is absent with the project directory there); it then leaves the
    whole layout in place. When it does not return it raises an
    [Exception], which [main] reports with exit code 1. *)
Theorem setup_project_structure_returns_iff (st : State) :
  let f := fs (world st) in
  let ok :=
    creatable f (child (root st) "src") /\ creatable f (child (root st) "tests") in
  (fst (setup_project_structure st) = Ret tt <-> ok) /\
  (fst (setup_project_structure st) = Ret tt ->
   layout_exists (snd (setup_project_structure st))) /\
  (~ ok -> exists e, fst (setup_project_structure st) = Raise e /\ is_Exception e = true).
Proof.
  cbv zeta. rewrite setup_project_structure_eq.
  destruct (scaffold_outcome (named st "src") (named st "tests")
              (path_join (named st "src") "__init__.py")
              (path_join (named st "tests") "__init__.py")
              (root st) (child (root st) "src") (child (root st) "tests")
              (child (child (root st) "src") "__init__.py")
              (child (child (root st) "tests") "__init__.py") st)
    as [(CS & CT & f' & E & HS & HT & HSI & HTI) | (N & e & st' & E & He)];
    try apply parent_child; try apply root_neq_child;
    try (apply child_neq_last; discriminate); rewrite E; cbn.
  - repeat split; try tauto.
  - repeat split; try tauto; try discriminate; eauto.
Qed.


(** ** Further properties of the test runner *)

(** X4. [run_tests] launches the test command once (in the project
    directory, with the 60 second timeout) and changes nothing else.
    The result it returns says [passed] exactly when the child process
    finished with exit code 0, its output then being the standard
    output followed by the standard error; [passed] and [returncode]
    always agree. It raises only what is not an [Exception] (the
    interrupt of the user), and that it never turns into a result. *)
Theorem run_tests_verdict (st : State) :
  snd (run_tests st) = after_test_run st /\
  (forall r, fst (run_tests st) = Ret r ->
     (passed r = true <->
      exists out err, next_outcome st = Finishes (Completed 0 out err) /\ output r = out ++ err) /\
     (passed r = true <-> returncode r = 0)) /\
  (forall e, fst (run_tests st) = Raise e <->
     next_outcome st = Fails e /\ is_Exception e = false).
Proof.
  rewrite run_tests_eq. cbn [fst snd]. split; [reflexivity |].
  destruct (next_outcome st) as [[rc out err] | e |]; cbn.
  3: { split.
       - intros r [= <-]. cbn. split; split; try easy. now intros (? & ? & ? & _).
       - intros e'. split; [discriminate | now intros [? _]]. }
  - split.
    + intros r [= <-]. cbn. rewrite Z.eqb_eq. split; [| tauto]. split.
      * intros ->. eauto.
      * now intros (o & e & [= -> _ _] & _).
    + intros e. split; [discriminate | now intros [? _]].
  - destruct (is_TimeoutExpired e) eqn:Ht.
    + assert (is_Exception e = true)
        by (unfold is_TimeoutExpired, is_Exception in *; destruct (exn_cls e); easy).
      split.
      * intros r [= <-]. cbn. split; split; try easy. now intros (? & ? & ? & _).
      * intros e'. split; [discriminate | intros [[= ->] ?]; congruence].
    + destruct (is_Exception e) eqn:He.
      * split.
        -- intros r [= <-]. cbn. split; split; try easy. now intros (? & ? & ? & _).
        -- intros e'. split; [discriminate | intros [[= ->] ?]; congruence].
      * split; [discriminate |].
        intros e'. split; [intros [= ->]; easy | now intros [[= ->] _]].
Qed.

(** ** What every pass and every run does *)

Lemma evolved_evolved (st : State) (i1 i2 : Z) (f1 f2 : gmap (list string) node)
    (l1 l2 : nat) (evs1 evs2 : list event) :
  evolved (evolved st i1 f1 l1 evs1) i2 f2 l2 evs2 = evolved st i2 f2 l2 (evs1 ++ evs2).
Proof. unfold evolved. cbn. now rewrite <- List.app_assoc. Qed.

Lemma verdict_failed_test_fails (o : proc_outcome) (r : TestResult) :
  verdict o = Ret r -> passed r = false -> test_fails o = true.
Proof.
  destruct o as [cp|e|]; cbn.
  - intros [= <-]. cbn. now intros ->.
  - destruct (is_TimeoutExpired e) eqn:Ht.
    + intros _ _. unfold is_TimeoutExpired, is_Exception in *. now destruct (exn_cls e).
    + destruct (is_Exception e); [easy | discriminate].
  - easy.
Qed.

Lemma generate_final_report_facts (r : TestResult) (st : State) :
  exists res f' evs,
    generate_final_report r st = (res, add_events evs (next_launch (set_fs f' st))) /\
    test_executions evs = 0%nat /\
    report_runs evs = 1%nat /\
    match res with
    | Ret _ =>
        exists cov,
          next_outcome st = Finishes cov /\
          report_writable st /\
          let report := report_text (iteration (self st)) (output r) (cp_stdout cov) in
          f' = <[report_path st := File report]> (fs (world st)) /\
          writes evs = [WriteFile (report_path st) report]
    | Raise e =>
        f' = fs (world st) /\ writes evs = [] /\
        (next_outcome st = Fails e \/
         exists cov, next_outcome st = Finishes cov /\ ~ report_writable st)
    | Diverge =>
        f' = fs (world st) /\ writes evs = [] /\ next_outcome st = NeverEnds
    end.
Proof.
  unfold generate_final_report, bind, get, Os.subprocess_run, next_outcome.
  destruct (procs (world st) (launched (world st))) as [cov|e|] eqn:Ho.
  2: { exists (Raise e), (fs (world st)), [Run coverage_argv (root st) None].
       repeat split; try reflexivity;
         first [ now left
               | f_equal; unfold add_events, next_launch, set_fs, log; cbn; same_state ]. }
  2: { exists Diverge, (fs (world st)), [Run coverage_argv (root st) None].
       repeat split; reflexivity. }
  unfold print, emit, Os.write_text, Os.parent_error. cbn.
  replace (parent (report_path st)) with (root st) by (symmetry; apply parent_child).
  set (report := report_text (iteration (self st)) (output r) (cp_stdout cov)).
  destruct (fs (world st) !! report_path st) as [[|c|c]|] eqn:Hp;
    destruct (fs (world st) !! root st) as [[|c'|c']|] eqn:HR;
    first
      [ solve
          [ exists (Ret tt), (<[report_path st := File report]> (fs (world st))),
              (report_events (root st) (report_path st) report);
            repeat split; try reflexivity;
            first
              [ exists cov; repeat split; try reflexivity; unfold report_writable;
                rewrite ?Hp, ?HR; try reflexivity; discriminate
              | f_equal; unfold report_events, add_events, next_launch, set_fs, log; cbn;
                same_state ] ]
      | eexists (Raise _), (fs (world st)),
          [Run coverage_argv (root st) None; Stdout report];
        repeat split; try reflexivity;
        first
          [ right; exists cov; split; [reflexivity |]; unfold report_writable;
            rewrite ?Hp, ?HR; intros [? ?]; congruence
          | f_equal; unfold add_events, next_launch, set_fs, log; cbn; same_state ] ].
Qed.

Lemma development_pass_facts (respond : State -> string -> string) (st : State) :
  exists res f' l' evs,
    development_pass respond st = (res, evolved st (iteration (self st) + 1) f' l' evs) /\
    test_executions evs = 1%nat /\
    (report_runs evs <= 1)%nat /\
    l' = (report_runs evs + S (launched (world st)))%nat /\
    match res with
    | Ret None =>
        (exists r, verdict (next_outcome st) = Ret r /\ passed r = false) /\
        f' = fs (world st) /\ writes evs = [] /\ report_runs evs = 0%nat
    | Ret (Some b) =>
        b = true /\ report_runs evs = 1%nat /\
        exists r cov,
          verdict (next_outcome st) = Ret r /\ passed r = true /\
          procs (world st) (S (launched (world st))) = Finishes cov /\
          let report := report_text (iteration (self st) + 1) (output r) (cp_stdout cov) in
          f' = <[report_path st := File report]> (fs (world st)) /\
          writes evs = [WriteFile (report_path st) report]
    | Raise e => f' = fs (world st) /\ writes evs = []
    | Diverge =>
        f' = fs (world st) /\ writes evs = [] /\ report_runs evs = 1%nat /\
        (exists r, verdict (next_outcome st) = Ret r /\ passed r = true) /\
        procs (world st) (S (launched (world st))) = NeverEnds
    end.
Proof.
  unfold development_pass, bind, get, print, emit. cbn.
  rewrite run_tests_eq.
  pose proof (verdict_returns (next_outcome st)) as Hv.
  change (next_outcome _) with (next_outcome st).
  destruct (verdict (next_outcome st)) as [r|e|] eqn:Ev; [| | easy].
  - destruct (passed r) eqn:Hp.
    + match goal with
      | |- context [generate_final_report r ?X] =>
          assert (HX : X = evolved st (iteration (self st) + 1) (fs (world st))
                             (S (launched (world st)))
                             [banner (iteration (self st) + 1) (max_iterations (self st));
                              Run pytest_argv (root st) (Some 60);
                              Stdout "✅ ALL TESTS PASSED!"])
            by (unfold evolved, after_test_run, next_launch, log, set_iteration, banner,
                  root; cbn; same_state);
          rewrite HX
      end.
      match goal with
      | |- context [generate_final_report r ?X] =>
          destruct (generate_final_report_facts r X) as (res & f' & evs & E & Ht & Hr & Hm);
          rewrite E
      end.
      destruct res as [[]|e|].
      * destruct Hm as (cov & Hcov & _ & Hf & Hw).
        exists (Ret (Some true)), f', (S (S (launched (world st)))),
          ([banner (iteration (self st) + 1) (max_iterations (self st));
            Run pytest_argv (root st) (Some 60);
            Stdout "✅ ALL TESTS PASSED!"] ++ evs)%list.
        split; [unfold ret; f_equal; unfold evolved, add_events, next_launch, set_fs; cbn;
                same_state |].
        rewrite test_executions_app, report_runs_app, writes_app, Ht, Hr, Hw.
        repeat split; try reflexivity.
        exists r, cov. split; [reflexivity |]. split; [exact Hp |].
        split; [exact Hcov |]. split; [exact Hf | reflexivity].
      * destruct Hm as (Hf & Hw & _).
        exists (Raise e), f', (S (S (launched (world st)))),
          ([banner (iteration (self st) + 1) (max_iterations (self st));
            Run pytest_argv (root st) (Some 60);
            Stdout "✅ ALL TESTS PASSED!"] ++ evs)%list.
        split; [f_equal; unfold evolved, add_events, next_launch, set_fs; cbn;
                same_state |].
        rewrite test_executions_app, report_runs_app, writes_app, Ht, Hr, Hw.
        repeat split; try reflexivity. exact Hf.
      * destruct Hm as (Hf & Hw & Hne).
        exists Diverge, f', (S (S (launched (world st)))),
          ([banner (iteration (self st) + 1) (max_iterations (self st));
            Run pytest_argv (root st) (Some 60);
            Stdout "✅ ALL TESTS PASSED!"] ++ evs)%list.
        split; [f_equal; unfold evolved, add_events, next_launch, set_fs; cbn;
                same_state |].
        rewrite test_executions_app, report_runs_app, writes_app, Ht, Hr, Hw.
        repeat split; try reflexivity; [exact Hf | eauto | exact Hne].
    + rewrite send_to_claude_eq.
      exists (Ret None), (fs (world st)), (S (launched (world st))),
        (failed_pass_events (iteration (self st) + 1) (max_iterations (self st)) (root st) r).
      split.
      { unfold Os.sleep, emit, ret. f_equal.
        unfold evolved, failed_pass_events, add_events, after_test_run, next_launch, log,
          set_iteration, banner, root.
        cbn. same_state. }
      repeat split; try reflexivity; try apply Nat.le_0_l; eauto.
  - exists (Raise e), (fs (world st)), (S (launched (world st))),
      [banner (iteration (self st) + 1) (max_iterations (self st));
       Run pytest_argv (root st) (Some 60)].
    split.
    { f_equal. unfold evolved, after_test_run, next_launch, log, set_iteration, banner, root.
      cbn. same_state. }
    repeat split; try reflexivity.
    apply Nat.le_0_l.
Qed.

Lemma development_passes_facts (respond : State -> string -> string) (fuel : nat) :
  forall st,
    (passes_left st <= fuel)%nat ->
    exists res i' f' l' evs,
      development_passes respond fuel st = (res, evolved st i' f' l' evs) /\
      i' = iteration (self st) + Z.of_nat (test_executions evs) /\
      l' = (test_executions evs + report_runs evs + launched (world st))%nat /\
      (test_executions evs <= passes_left st)%nat /\
      (report_runs evs <= 1)%nat /\
      (forall k, (S k < test_executions evs)%nat ->
         test_fails (procs (world st) (launched (world st) + k)%nat) = true) /\
      match res with
      | Ret true =>
          report_runs evs = 1%nat /\
          exists j r cov,
            test_executions evs = S j /\
            verdict (procs (world st) (launched (world st) + j)%nat) = Ret r /\
            passed r = true /\
            procs (world st) (launched (world st) + S j)%nat = Finishes cov /\
            let report := report_text i' (output r) (cp_stdout cov) in
            f' = <[report_path st := File report]> (fs (world st)) /\
            writes evs = [WriteFile (report_path st) report]
      | Ret false =>
          f' = fs (world st) /\ writes evs = [] /\ report_runs evs = 0%nat /\
          test_executions evs = passes_left st /\
          (forall k, (k < test_executions evs)%nat ->
             test_fails (procs (world st) (launched (world st) + k)%nat) = true)
      | Raise e => f' = fs (world st) /\ writes evs = []
      | Diverge =>
          f' = fs (world st) /\ writes evs = [] /\ report_runs evs = 1%nat /\
          exists j r,
            test_executions evs = S j /\
            verdict (procs (world st) (launched (world st) + j)%nat) = Ret r /\
            passed r = true /\
            procs (world st) (launched (world st) + S j)%nat = NeverEnds
      end.
Proof.
  induction fuel as [|fuel IH]; intros st Hfuel.
  - assert (Hdone : max_iterations (self st) <= iteration (self st))
      by (unfold passes_left in Hfuel; lia).
    rewrite (development_passes_exhausted respond 0 st Hdone).
    exists (Ret false), (iteration (self st)), (fs (world st)), (launched (world st)),
      [Stdout "❌ Max iterations reached. Development incomplete."].
    split; [destruct st as [[] []]; reflexivity |].
    repeat split; try reflexivity; try (cbn; lia); intros k Hk; cbn in Hk; lia.
  - destruct (Z.lt_ge_cases (iteration (self st)) (max_iterations (self st))) as [Hlt | Hdone].
    2: { rewrite (development_passes_exhausted respond (S fuel) st Hdone).
         exists (Ret false), (iteration (self st)), (fs (world st)), (launched (world st)),
           [Stdout "❌ Max iterations reached. Development incomplete."].
         split; [destruct st as [[] []]; reflexivity |].
         repeat split; try reflexivity; try (cbn; lia);
           try (intros k Hk; cbn in Hk; lia).
         unfold passes_left. cbn. lia. }
    assert (Hpos : (1 <= passes_left st)%nat) by (unfold passes_left; lia).
    cbn [development_passes].
    destruct (Z.ltb_spec (iteration (self st)) (max_iterations (self st))); [| lia].
    destruct (development_pass_facts respond st)
      as (res & f1 & l1 & evs1 & E & Ht & Hr & Hl & Hm).
    rewrite E. destruct res as [[b|]|e|].
    + destruct Hm as (-> & Hr1 & r & cov & Hv & Hp & Hcov & Hf & Hw).
      exists (Ret true), (iteration (self st) + 1), f1, l1, evs1.
      rewrite Ht, Hr1 in *.
      split; [reflexivity |]. split; [reflexivity |]. split; [exact Hl |].
      split; [exact Hpos |]. split; [lia |]. split; [intros k Hk; lia |].
      split; [reflexivity |].
      exists 0%nat, r, cov. rewrite Nat.add_0_r, Nat.add_1_r.
      repeat split; try assumption; exact Hv.
    + destruct Hm as ((r & Hv & Hp) & -> & Hw & Hr0).
      rewrite Hr0 in Hl. cbn in Hl. subst l1.
      pose proof (verdict_failed_test_fails _ _ Hv Hp) as Hfail0.
      set (st1 := evolved st (iteration (self st) + 1) (fs (world st))
                    (S (launched (world st))) evs1).
      assert (Hleft : passes_left st = S (passes_left st1))
        by (unfold passes_left; cbn; lia).
      destruct (IH st1)
        as (res2 & i2 & f2 & l2 & evs2 & E2 & Hi2 & Hl2 & Ht2 & Hr2 & Hall2 & Hm2); [lia |].
      rewrite E2. unfold st1 at 1. rewrite evolved_evolved.
      exists res2, i2, f2, l2, (evs1 ++ evs2)%list.
      split; [reflexivity |].
      rewrite test_executions_app, report_runs_app, writes_app, Ht, Hr0, Hw.
      cbn in Hi2, Hl2, Hall2.
      assert (Hshift : forall k, (S (launched (world st)) + k = launched (world st) + S k)%nat)
        by (intros; lia).
      assert (Hall : forall k, (k < 1 + test_executions evs2)%nat ->
                (k = test_executions evs2 -> res2 = Ret false) ->
                test_fails (procs (world st) (launched (world st) + k)%nat) = true).
      { intros [|k] Hk Hlast.
        - rewrite Nat.add_0_r. exact Hfail0.
        - rewrite <- Hshift.
          destruct (Nat.eq_dec (S k) (test_executions evs2)) as [Heq | Hne].
          + rewrite (Hlast Heq) in Hm2. destruct Hm2 as (_ & _ & _ & _ & Hf2).
            apply Hf2. lia.
          + apply Hall2. lia. }
      split; [lia |]. split; [lia |]. split; [lia |]. split; [cbn; lia |].
      split; [intros k Hk; apply Hall; [lia | intros ->; lia] |].
      destruct res2 as [[|]|e|].
      * destruct Hm2 as (Hr2' & j & r' & cov & Htj & Hvj & Hpj & Hcj & Hf & Hw2).
        change (launched (world st1)) with (S (launched (world st))) in Hvj, Hcj.
        rewrite Hshift in Hvj, Hcj.
        split; [exact Hr2' |]. exists (S j), r', cov.
        split; [cbn; lia |]. split; [exact Hvj |]. split; [exact Hpj |].
        split; [exact Hcj |]. split; [exact Hf | exact Hw2].
      * destruct Hm2 as (Hf & Hw2 & Hr2' & Ht2' & Hf2).
        split; [exact Hf |]. split; [exact Hw2 |]. split; [exact Hr2' |].
        split; [lia |]. intros k Hk. apply Hall; [lia | reflexivity].
      * exact Hm2.
      * destruct Hm2 as (Hf & Hw2 & Hr2' & j & r' & Htj & Hvj & Hpj & Hcj).
        change (launched (world st1)) with (S (launched (world st))) in Hvj, Hcj.
        rewrite Hshift in Hvj, Hcj.
        split; [exact Hf |]. split; [exact Hw2 |]. split; [exact Hr2' |].
        exists (S j), r'.
        split; [cbn; lia |]. split; [exact Hvj |]. split; [exact Hpj | exact Hcj].
    + destruct Hm as (-> & Hw).
      exists (Raise e), (iteration (self st) + 1), (fs (world st)), l1, evs1.
      rewrite Ht. repeat split; try reflexivity; try lia; try assumption.
    + destruct Hm as (-> & Hw & Hr1 & (r & Hv & Hp) & Hne).
      exists Diverge, (iteration (self st) + 1), (fs (world st)), l1, evs1.
      rewrite Ht, Hr1 in *.
      split; [reflexivity |]. split; [reflexivity |]. split; [exact Hl |].
      split; [exact Hpos |]. split; [lia |]. split; [intros k Hk; lia |].
      split; [reflexivity |]. split; [exact Hw |]. split; [reflexivity |].
      exists 0%nat, r. rewrite Nat.add_0_r, Nat.add_1_r.
      repeat split; try assumption; exact Hv.
Qed.

Lemma startup_only_adds (respond : State -> string -> string) (st : State) :
  adds_only (layout_entries st) (fs (world st)) (fs (world (snd (startup respond st)))).
Proof.
  unfold startup, bind, get, print, emit. cbn.
  match goal with
  | |- context [setup_project_structure ?X] =>
      pose proof (setup_adds_only X) as A;
      destruct (setup_project_structure X) as [[[]|e|] st1]
  end; try exact A.
  match goal with
  | |- context [read_requirements ?X] =>
      destruct (read_requirements_shape X) as (r2 & -> & _)
  end.
  destruct r2 as [req|e|]; try exact A.
  unfold Os.read_text. cbn.
  destruct (fs (world st1) !! instructions_path st) as [[|ins|why]|]; exact A.
Qed.

(** The two handlers of [main] print and exit with code 1. *)
Lemma handlers_exit_1 (e : exn) (st1 : State) :
  exists extra,
    (if is_KeyboardInterrupt e
     then (Exit 1, log (Stdout "

⚠️  Development interrupted by user") st1)
     else (Exit 1, log (Traceback e) (log (Stdout ("

❌ Error: " ++ exn_str e)) st1)))
    = (Exit 1, add_events extra st1) /\
    test_executions extra = 0%nat /\ report_runs extra = 0%nat /\ writes extra = [] /\
    prompts_sent extra = [] /\
    extra = (if is_KeyboardInterrupt e
             then [Stdout "

⚠️  Development interrupted by user"]
             else [Stdout ("

❌ Error: " ++ exn_str e); Traceback e]).
Proof.
  destruct (is_KeyboardInterrupt e).
  - eexists [_]. repeat split.
  - exists [Stdout ("

❌ Error: " ++ exn_str e); Traceback e].
    split; [f_equal; unfold add_events, log; cbn; now rewrite <- List.app_assoc |].
    repeat split.
Qed.

(** Every run, whatever the environment does: how it ends, what was
    launched and written, and what became of the filesystem. [f1] is
    the filesystem as the scaffolder left it. *)
Lemma run_facts (respond : State -> string -> string) (agent : Agent) (w : World) :
  let st0 := mkState agent w in
  exists out st' evs f1,
    run_agent respond agent w = (out, st') /\
    trace (world st') = (trace w ++ evs)%list /\
    adds_only (layout_entries st0) (fs w) f1 /\
    project_dir (self st') = project_dir agent /\
    max_iterations (self st') = max_iterations agent /\
    iteration (self st') = iteration agent + Z.of_nat (test_executions evs) /\
    launched (world st') = (test_executions evs + report_runs evs + launched w)%nat /\
    (test_executions evs <= passes_left st0)%nat /\
    (report_runs evs <= 1)%nat /\
    (forall k, (S k < test_executions evs)%nat ->
       test_fails (procs w (launched w + k)%nat) = true) /\
    ((out = Exit 0 /\ report_runs evs = 1%nat /\
      exists j r cov,
        test_executions evs = S j /\
        verdict (procs w (launched w + j)%nat) = Ret r /\
        passed r = true /\
        procs w (launched w + S j)%nat = Finishes cov /\
        let report := report_text (iteration (self st')) (output r) (cp_stdout cov) in
        fs (world st') = <[report_path st0 := File report]> f1 /\
        writes evs = [WriteFile (report_path st0) report])
     \/
     (out = Exit 1 /\ fs (world st') = f1 /\ writes evs = [])
     \/
     (out = Hangs /\ fs (world st') = f1 /\ writes evs = [] /\ report_runs evs = 1%nat /\
      exists j r,
        test_executions evs = S j /\
        verdict (procs w (launched w + j)%nat) = Ret r /\
        passed r = true /\
        procs w (launched w + S j)%nat = NeverEnds)).
Proof.
  intros st0. unfold run_agent. fold st0. unfold autonomous_development_loop, bind.
  pose proof (startup_only_adds respond st0) as A.
  destruct (startup_shape respond st0) as (res & f1 & evs0 & E & N & _ & Ht0 & Hr0 & Hw0 & _).
  rewrite E in A |- *. cbn in A.
  destruct res as [[]|e|]; [| | easy].
  - set (st1 := add_events evs0 (set_fs f1 st0)).
    destruct (development_passes_facts respond (passes_left st1) st1)
      as (res2 & i2 & f2 & l2 & evs2 & E2 & Hi2 & Hl2 & Ht2 & Hr2 & Hall2 & Hm2); [lia |].
    rewrite E2.
    destruct res2 as [[|]|e|].
    + destruct Hm2 as (Hr2' & j & r & cov & Htj & Hvj & Hpj & Hcj & Hf & Hw2).
      exists (Exit 0), (evolved st1 i2 f2 l2 evs2), (evs0 ++ evs2)%list, f1.
      rewrite test_executions_app, report_runs_app, writes_app, Ht0, Hr0, Hw0.
      split; [reflexivity |]. split; [cbn; now rewrite <- List.app_assoc |].
      split; [exact A |]. split; [reflexivity |]. split; [reflexivity |].
      split; [exact Hi2 |]. split; [exact Hl2 |]. split; [exact Ht2 |].
      split; [exact Hr2 |]. split; [exact Hall2 |].
      left. split; [reflexivity |]. split; [exact Hr2' |].
      exists j, r, cov. split; [exact Htj |]. split; [exact Hvj |]. split; [exact Hpj |].
      split; [exact Hcj |]. split; [exact Hf | exact Hw2].
    + destruct Hm2 as (Hf & Hw2 & Hr2' & _).
      exists (Exit 1), (evolved st1 i2 f2 l2 evs2), (evs0 ++ evs2)%list, f1.
      rewrite test_executions_app, report_runs_app, writes_app, Ht0, Hr0, Hw0.
      split; [reflexivity |]. split; [cbn; now rewrite <- List.app_assoc |].
      split; [exact A |]. split; [reflexivity |]. split; [reflexivity |].
      split; [exact Hi2 |]. split; [exact Hl2 |]. split; [exact Ht2 |].
      split; [exact Hr2 |]. split; [exact Hall2 |].
      right. left. repeat split; assumption.
    + destruct Hm2 as (Hf & Hw2).
      destruct (handlers_exit_1 e (evolved st1 i2 f2 l2 evs2))
        as (extra & -> & Hte & Hre & Hwe & _).
      exists (Exit 1), (add_events extra (evolved st1 i2 f2 l2 evs2)),
        (evs0 ++ evs2 ++ extra)%list, f1.
      rewrite !test_executions_app, !report_runs_app, !writes_app,
        Ht0, Hr0, Hw0, Hte, Hre, Hwe, Hw2.
      split; [reflexivity |].
      split; [cbn; now rewrite <- !List.app_assoc |].
      split; [exact A |]. split; [reflexivity |]. split; [reflexivity |].
      change (passes_left st1) with (passes_left st0) in Ht2.
      change (launched (world st1)) with (launched w) in Hl2, Hall2.
      change (procs (world st1)) with (procs w) in Hall2.
      split; [cbn; cbn in Hi2; lia |]. split; [cbn; lia |]. split; [lia |]. split; [lia |].
      split; [intros k Hk; apply Hall2; cbn in Hk; lia |].
      right. left. repeat split; assumption.
    + destruct Hm2 as (Hf & Hw2 & Hr2' & j & r & Htj & Hvj & Hpj & Hcj).
      exists Hangs, (evolved st1 i2 f2 l2 evs2), (evs0 ++ evs2)%list, f1.
      rewrite test_executions_app, report_runs_app, writes_app, Ht0, Hr0, Hw0.
      split; [reflexivity |]. split; [cbn; now rewrite <- List.app_assoc |].
      split; [exact A |]. split; [reflexivity |]. split; [reflexivity |].
      split; [exact Hi2 |]. split; [exact Hl2 |]. split; [exact Ht2 |].
      split; [exact Hr2 |]. split; [exact Hall2 |].
      right. right. split; [reflexivity |]. split; [exact Hf |]. split; [exact Hw2 |].
      split; [exact Hr2' |].
      exists j, r. split; [exact Htj |]. split; [exact Hvj |]. split; [exact Hpj | exact Hcj].
  - destruct (handlers_exit_1 e (add_events evs0 (set_fs f1 st0)))
      as (extra & -> & Hte & Hre & Hwe & _).
    exists (Exit 1), (add_events extra (add_events evs0 (set_fs f1 st0))),
      (evs0 ++ extra)%list, f1.
    rewrite !test_executions_app, !report_runs_app, !writes_app,
      Ht0, Hr0, Hw0, Hte, Hre, Hwe.
    split; [reflexivity |].
    split; [cbn; now rewrite <- !List.app_assoc |].
    split; [exact A |]. split; [reflexivity |]. split; [reflexivity |].
    split; [cbn; lia |]. split; [reflexivity |]. split; [lia |]. split; [lia |].
    split; [intros k Hk; cbn in Hk; lia |].
    right. left. repeat split; reflexivity.
Qed.

Lemma verdict_passed (o : proc_outcome) (r : TestResult) :
  verdict o = Ret r -> passed r = true ->
  exists out err, o = Finishes (Completed 0 out err) /\ output r = out ++ err.
Proof.
  destruct o as [[rc out err]|e|]; cbn.
  - intros [= <-]. cbn. rewrite Z.eqb_eq. intros ->. eauto.
  - destruct (is_TimeoutExpired e); [intros [= <-]; discriminate |].
    destruct (is_Exception e); [intros [= <-]; discriminate | discriminate].
  - intros [= <-]. discriminate.
Qed.

Lemma layout_entries_paths (st : State) (q : list string) (n : node) :
  In (q, n) (layout_entries st) -> In q (scaffold_paths st).
Proof.
  unfold layout_entries, scaffold_paths. cbn.
  intros [[= <- _] | [[= <- _] | [[= <- _] | [[= <- _] | []]]]]; tauto.
Qed.

Lemma adds_only_elsewhere (st : State) (f f' : gmap (list string) node) (q : list string) :
  adds_only (layout_entries st) f f' -> ~ In q (scaffold_paths st) -> f' !! q = f !! q.
Proof.
  intros A Hq. destruct (A q) as [E | (_ & n & Hin & _)]; [exact E |].
  destruct (Hq (layout_entries_paths st q n Hin)).
Qed.

Lemma adds_only_keeps (news : list (list string * node)) (f f' : gmap (list string) node)
    (q : list string) (n : node) :
  adds_only news f f' -> f !! q = Some n -> f' !! q = Some n.
Proof. intros A Hq. destruct (A q) as [E | (N & _)]; congruence. Qed.

(** X5. A run is bounded, and it ends unless its coverage child
    never does. Whatever the children and the filesystem do, a run
    launches the test command at most [max_iterations - iteration]
    times (at most 50 times from [main]) and the coverage command at
    most once, it launches nothing else, and the counter at the end is
    the counter at the start plus the number of test commands
    launched. A test run cannot keep the loop, its timeout cuts it; so
    the run ends, with exit code 0 or 1, in every case but one: a test
    run has passed and the child of the coverage command, which is
    launched without a timeout, never ends. *)
Theorem every_run_is_bounded (respond : State -> string -> string)
    (agent : Agent) (w : World) (argv : list string) :
  (exists out st' evs,
     run_agent respond agent w = (out, st') /\
     trace (world st') = (trace w ++ evs)%list /\
     (test_executions evs <= Z.to_nat (max_iterations agent - iteration agent))%nat /\
     (report_runs evs <= 1)%nat /\
     launched (world st') = (test_executions evs + report_runs evs + launched w)%nat /\
     iteration (self st') = iteration agent + Z.of_nat (test_executions evs) /\
     (out = Exit 0 \/ out = Exit 1 \/
      out = Hangs /\ report_runs evs = 1%nat /\
      exists j t_out t_err,
        test_executions evs = S j /\
        procs w (launched w + j)%nat = Finishes (Completed 0 t_out t_err) /\
        procs w (launched w + S j)%nat = NeverEnds) /\
     ((forall k, procs w k <> NeverEnds) -> out = Exit 0 \/ out = Exit 1)) /\
  (exists out st' evs,
     main respond argv w = (out, st') /\
     trace (world st') = (trace w ++ evs)%list /\
     (test_executions evs <= 50)%nat /\
     (report_runs evs <= 1)%nat /\
     iteration (self st') = Z.of_nat (test_executions evs) /\
     ((forall k, procs w k <> NeverEnds) -> out = Exit 0 \/ out = Exit 1)).
Proof.
  assert (R : forall a,
    exists out st' evs,
      run_agent respond a w = (out, st') /\
      trace (world st') = (trace w ++ evs)%list /\
      (test_executions evs <= Z.to_nat (max_iterations a - iteration a))%nat /\
      (report_runs evs <= 1)%nat /\
      launched (world st') = (test_executions evs + report_runs evs + launched w)%nat /\
      iteration (self st') = iteration a + Z.of_nat (test_executions evs) /\
      (out = Exit 0 \/ out = Exit 1 \/
       out = Hangs /\ report_runs evs = 1%nat /\
       exists j t_out t_err,
         test_executions evs = S j /\
         procs w (launched w + j)%nat = Finishes (Completed 0 t_out t_err) /\
         procs w (launched w + S j)%nat = NeverEnds) /\
      ((forall k, procs w k <> NeverEnds) -> out = Exit 0 \/ out = Exit 1)).
  { intros a.
    destruct (run_facts respond a w)
      as (out & st' & evs & f1 & E & Ht & _ & _ & _ & Hi & Hl & Hb & Hr & _ & Hc).
    exists out, st', evs.
    split; [exact E |]. split; [exact Ht |]. split; [exact Hb |]. split; [exact Hr |].
    split; [exact Hl |]. split; [exact Hi |].
    destruct Hc as [(-> & _) | [(-> & _) | (-> & _ & _ & Hr1 & j & r & Htj & Hv & Hp & Hne)]];
      [split; auto | split; auto |].
    destruct (verdict_passed _ _ Hv Hp) as (t_out & t_err & Ho & _).
    split.
    - right. right. split; [reflexivity |]. split; [exact Hr1 |]. eauto 8.
    - intros Hend. destruct (Hend _ Hne). }
  split; [apply R |].
  unfold main.
  match goal with
  | |- context [run_agent respond ?a w] =>
      destruct (R a) as (out & st' & evs & E & Ht & Hb & Hr & _ & Hi & _ & Hend)
  end.
  exists out, st', evs. repeat split; assumption.
Qed.

(** X6. Exit code 0 certifies the run. When a run ends with exit code
    0, its last test launch finished with exit code 0 and every test
    launch before it failed; the coverage command was launched once,
    right after it, and finished; the counter has advanced by the
    number of test runs; and the one file written is the report, which
    is on disk as written and carries the final count, the output of
    the passing test run and the standard output of the coverage
    command. *)
Theorem exit_code_0_certifies_report (respond : State -> string -> string)
    (agent : Agent) (w : World) (st' : State) :
  let st0 := mkState agent w in
  run_agent respond agent w = (Exit 0, st') ->
  exists evs j t_out t_err cov,
    trace (world st') = (trace w ++ evs)%list /\
    test_executions evs = S j /\
    report_runs evs = 1%nat /\
    (forall k, (k < j)%nat -> test_fails (procs w (launched w + k)%nat) = true) /\
    procs w (launched w + j)%nat = Finishes (Completed 0 t_out t_err) /\
    procs w (launched w + S j)%nat = Finishes cov /\
    iteration (self st') = iteration agent + Z.of_nat (S j) /\
    let report := report_text (iteration (self st')) (t_out ++ t_err) (cp_stdout cov) in
    writes evs = [WriteFile (report_path st0) report] /\
    fs (world st') !! report_path st0 = Some (File report) /\
    contains ("Total iterations: " ++ str_of_int (iteration (self st'))) report /\
    contains (t_out ++ t_err) report /\
    contains (cp_stdout cov) report.
Proof.
  intros st0 Hrun.
  destruct (run_facts respond agent w)
    as (out & st2 & evs & f1 & E & Ht & _ & _ & _ & Hi & _ & _ & _ & Hall & Hc).
  rewrite Hrun in E. injection E as <- <-.
  destruct Hc as [(_ & Hr1 & j & r & cov & Htj & Hv & Hp & Hcov & Hf & Hw)
                 | [([=] & _) | ([=] & _)]].
  destruct (verdict_passed _ _ Hv Hp) as (t_out & t_err & Ho & Hout).
  rewrite Hout in Hf, Hw.
  exists evs, j, t_out, t_err, cov.
  split; [exact Ht |]. split; [exact Htj |]. split; [exact Hr1 |].
  split; [intros k Hk; apply Hall; lia |].
  split; [exact Ho |]. split; [exact Hcov |].
  split; [now rewrite Hi, Htj |].
  split; [exact Hw |].
  split; [rewrite Hf; apply lookup_insert_eq |].
  apply report_mentions.
Qed.

(** X7. A run removes and changes nothing but the report: every path
    other than the report's that held something before the run holds
    the same after it, whatever the outcome, and a path that is
    neither the report's nor one of the four paths of the layout is
    exactly as before. *)
Theorem run_keeps_what_was_there (respond : State -> string -> string)
    (agent : Agent) (w : World) :
  let st0 := mkState agent w in
  let st' := snd (run_agent respond agent w) in
  (forall q n, q <> report_path st0 ->
     fs w !! q = Some n -> fs (world st') !! q = Some n) /\
  (forall q, q <> report_path st0 -> ~ In q (scaffold_paths st0) ->
     fs (world st') !! q = fs w !! q).
Proof.
  intros st0.
  destruct (run_facts respond agent w)
    as (out & st' & evs & f1 & E & _ & A & _ & _ & _ & _ & _ & _ & _ & Hc).
  rewrite E. cbv zeta. cbn [snd].
  assert (F : forall q, q <> report_path st0 -> fs (world st') !! q = f1 !! q).
  { intros q Hq.
    destruct Hc as [(_ & _ & j & r & cov & _ & _ & _ & _ & -> & _)
                   | [(_ & -> & _) | (_ & -> & _)]];
      [now apply lookup_insert_ne | reflexivity | reflexivity]. }
  split.
  - intros q n Hq Hn. rewrite (F q Hq). now apply (adds_only_keeps _ _ _ _ _ A).
  - intros q Hq Hs. rewrite (F q Hq). now apply (adds_only_elsewhere st0 _ _ _ A).
Qed.

(** ** Runs that fail for a while *)

Lemma time_slept_app (t1 t2 : list event) :
  time_slept (t1 ++ t2) = time_slept t1 + time_slept t2.
Proof.
  unfold time_slept. induction t1 as [|ev t1 IH]; [reflexivity |].
  cbn. destruct ev; rewrite ?IH; lia.
Qed.

Lemma evolved_same (st : State) :
  evolved st (iteration (self st)) (fs (world st)) (launched (world st)) [] = st.
Proof. destruct st as [[] []]. unfold evolved. cbn. now rewrite List.app_nil_r. Qed.

Lemma failed_pass_evolved (st : State) (r : TestResult) :
  failed_pass st r =
  evolved st (iteration (self st) + 1) (fs (world st)) (S (launched (world st)))
    (failed_pass_events (iteration (self st) + 1) (max_iterations (self st)) (root st) r).
Proof. reflexivity. Qed.

(** The debug prompts of [j] failed passes that start with the counter
    at [i] and the launch number [l]. *)
Lemma failing_prefix (respond : State -> string -> string) (j : nat) :
  forall (st : State) (fuel : nat),
    (forall k, (k < j)%nat ->
       test_fails (procs (world st) (launched (world st) + k)%nat) = true) ->
    ((0 < j)%nat -> iteration (self st) + Z.of_nat j <= max_iterations (self st)) ->
    exists evs,
      development_passes respond (j + fuel) st =
      development_passes respond fuel
        (evolved st (iteration (self st) + Z.of_nat j) (fs (world st))
           (launched (world st) + j) evs) /\
      test_executions evs = j /\
      report_runs evs = 0%nat /\
      writes evs = [] /\
      time_slept evs = 2 * Z.of_nat j /\
      prompts_sent evs =
        map (fun k =>
               (iteration (self st) + 1 + Z.of_nat k,
                debug_prompt (iteration (self st) + 1 + Z.of_nat k)
                  (failure_output (procs (world st) (launched (world st) + k)%nat))))
          (seq 0 j).
Proof.
  induction j as [|j IH]; intros st fuel Hfail Hcap.
  - exists []. rewrite Z.add_0_r, Nat.add_0_r, evolved_same. repeat split.
  - pose proof (Hfail 0%nat ltac:(lia)) as H0. rewrite Nat.add_0_r in H0.
    destruct (test_fails_verdict _ H0) as (r & Hv & Hp).
    change (S j + fuel)%nat with (S (j + fuel)).
    specialize (Hcap ltac:(lia)).
    rewrite (development_passes_again respond (j + fuel) st r); [| lia | exact Hv | exact Hp].
    rewrite failed_pass_evolved.
    set (evs1 := failed_pass_events (iteration (self st) + 1) (max_iterations (self st))
                   (root st) r).
    set (st1 := evolved st (iteration (self st) + 1) (fs (world st))
                  (S (launched (world st))) evs1).
    destruct (IH st1 fuel) as (evs2 & E & Ht & Hr & Hw & Hs & Hpr).
    { intros k Hk. cbn.
      replace (S (launched (world st) + k)) with (launched (world st) + S k)%nat by lia.
      apply Hfail. lia. }
    { cbn. lia. }
    exists (evs1 ++ evs2)%list. rewrite E. unfold st1 at 1. rewrite evolved_evolved.
    split.
    { f_equal. cbn. f_equal; lia. }
    rewrite test_executions_app, report_runs_app, writes_app, time_slept_app,
      prompts_sent_app, Ht, Hr, Hw, Hs, Hpr.
    repeat split; try reflexivity.
    + change (time_slept evs1) with 2. lia.
    + change (prompts_sent evs1)
        with [(iteration (self st) + 1, debug_prompt (iteration (self st) + 1) (output r))].
      cbn [seq map app]. f_equal.
      * unfold failure_output. rewrite Nat.add_0_r, Z.add_0_r, Hv. reflexivity.
      * rewrite <- seq_shift, List.map_map. apply List.map_ext. intros k. cbn.
        replace (S (launched (world st) + k)) with (launched (world st) + S k)%nat by lia.
        replace (iteration (self st) + 1 + 1 + Z.of_nat k)
          with (iteration (self st) + 1 + Z.pos (Pos.of_succ_nat k)) by lia.
        reflexivity.
Qed.

Lemma development_passes_interrupted (respond : State -> string -> string) (fuel : nat)
    (st : State) (e : exn) :
  iteration (self st) < max_iterations (self st) ->
  verdict (next_outcome st) = Raise e ->
  development_passes respond (S fuel) st =
  (Raise e,
   evolved st (iteration (self st) + 1) (fs (world st)) (S (launched (world st)))
     [banner (iteration (self st) + 1) (max_iterations (self st));
      Run pytest_argv (root st) (Some 60)]).
Proof.
  intros Hlt Hv. cbn [development_passes].
  destruct (Z.ltb_spec (iteration (self st)) (max_iterations (self st))); [| lia].
  unfold development_pass, bind, get, print, emit. cbn.
  rewrite run_tests_eq. change (next_outcome _) with (next_outcome st). rewrite Hv.
  f_equal. unfold evolved, after_test_run, next_launch, log, set_iteration, banner, root.
  cbn. same_state.
Qed.

(** The state in which [generate_final_report] is called by a pass
    from [st]. *)
Lemma tests_passed_state (respond : State -> string -> string) (st : State)
    (r : TestResult) :
  verdict (next_outcome st) = Ret r ->
  passed r = true ->
  development_pass respond st =
  (generate_final_report r ;; ret (Some true))
    (evolved st (iteration (self st) + 1) (fs (world st)) (S (launched (world st)))
       [banner (iteration (self st) + 1) (max_iterations (self st));
        Run pytest_argv (root st) (Some 60);
        Stdout "✅ ALL TESTS PASSED!"]).
Proof.
  intros Hv Hp. unfold development_pass, bind, get, print, emit. cbn.
  rewrite run_tests_eq. change (next_outcome _) with (next_outcome st). rewrite Hv, Hp.
  match goal with
  | |- context [generate_final_report r ?X] =>
      assert (HX : X = evolved st (iteration (self st) + 1) (fs (world st))
                         (S (launched (world st)))
                         [banner (iteration (self st) + 1) (max_iterations (self st));
                          Run pytest_argv (root st) (Some 60);
                          Stdout "✅ ALL TESTS PASSED!"])
        by (unfold evolved, after_test_run, next_launch, log, set_iteration, banner,
              root; cbn; same_state);
      rewrite HX
  end.
  reflexivity.
Qed.

Lemma development_passes_coverage_fails (respond : State -> string -> string) (fuel : nat)
    (st : State) (r : TestResult) (e : exn) :
  iteration (self st) < max_iterations (self st) ->
  verdict (next_outcome st) = Ret r ->
  passed r = true ->
  procs (world st) (S (launched (world st))) = Fails e ->
  development_passes respond (S fuel) st =
  (Raise e,
   evolved st (iteration (self st) + 1) (fs (world st)) (S (S (launched (world st))))
     [banner (iteration (self st) + 1) (max_iterations (self st));
      Run pytest_argv (root st) (Some 60);
      Stdout "✅ ALL TESTS PASSED!";
      Run coverage_argv (root st) None]).
Proof.
  intros Hlt Hv Hp Hcov. cbn [development_passes].
  destruct (Z.ltb_spec (iteration (self st)) (max_iterations (self st))); [| lia].
  rewrite (tests_passed_state respond st r Hv Hp).
  unfold bind at 1. unfold generate_final_report, bind, get, Os.subprocess_run. cbn.
  rewrite Hcov. f_equal. unfold evolved, next_launch, log, root. cbn. same_state.
Qed.


Lemma startup_events_readings (st : State) (req ins : string) :
  let evs := startup_events st req ins in
  test_executions evs = 0%nat /\ report_runs evs = 0%nat /\ writes evs = [] /\
  time_slept evs = 0 /\
  prompts_sent evs = [(iteration (self st), initial_prompt ins req)].
Proof. repeat split. Qed.

(** A run that reaches its loop and whose first [j] test runs fail:
    the loop goes on from the state [stj], [j] passes later. *)
Lemma loop_after_failures (respond : State -> string -> string) (agent : Agent) (w : World)
    (req ins : string) (j : nat) :
  let st0 := mkState agent w in
  can_start st0 req ins ->
  (forall k, (k < j)%nat -> test_fails (procs w (launched w + k)%nat) = true) ->
  ((0 < j)%nat -> iteration agent + Z.of_nat j <= max_iterations agent) ->
  exists f1 evs,
    scaffolded_from st0 f1 /\
    autonomous_development_loop respond st0 =
      development_passes respond
        (Z.to_nat (max_iterations agent - (iteration agent + Z.of_nat j)))
        (evolved st0 (iteration agent + Z.of_nat j) f1 (launched w + j) evs) /\
    test_executions evs = j /\
    report_runs evs = 0%nat /\
    writes evs = [] /\
    time_slept evs = 2 * Z.of_nat j /\
    prompts_sent evs =
      (iteration agent, initial_prompt ins req)
      :: map (fun k =>
                (iteration agent + 1 + Z.of_nat k,
                 debug_prompt (iteration agent + 1 + Z.of_nat k)
                   (failure_output (procs w (launched w + k)%nat))))
           (seq 0 j).
Proof.
  intros st0 Hstart Hfail Hcap.
  destruct (startup_eq respond st0 req ins Hstart) as (f1 & E & F).
  set (st1 := add_events (startup_events st0 req ins) (set_fs f1 st0)) in E.
  destruct (failing_prefix respond j st1
              (Z.to_nat (max_iterations agent - (iteration agent + Z.of_nat j))))
    as (evs & E' & Ht & Hr & Hw & Hs & Hp); [exact Hfail | exact Hcap |].
  exists f1, (startup_events st0 req ins ++ evs)%list.
  split; [exact F |]. split.
  - unfold autonomous_development_loop, bind. rewrite E.
    replace (passes_left st1)
      with (j + Z.to_nat (max_iterations agent - (iteration agent + Z.of_nat j)))%nat
      by (unfold passes_left; cbn; destruct j; [| specialize (Hcap ltac:(lia))]; lia).
    rewrite E'. f_equal. unfold evolved, st1, add_events, set_fs, st0. cbn.
    destruct agent. cbn. same_state.
  - destruct (startup_events_readings st0 req ins) as (Ht0 & Hr0 & Hw0 & Hs0 & Hp0).
    cbv zeta in Ht0, Hr0, Hw0, Hs0, Hp0.
    rewrite test_executions_app, report_runs_app, writes_app, time_slept_app,
      prompts_sent_app, Ht0, Hr0, Hw0, Hs0, Hp0, Ht, Hr, Hw, Hs, Hp.
    repeat split.
Qed.

Lemma passed_tail_readings (i cap : Z) (dir p : list string) (report : string) :
  let evs := ([banner i cap; Run pytest_argv dir (Some 60); Stdout "✅ ALL TESTS PASSED!"]
              ++ report_events dir p report)%list in
  test_executions evs = 1%nat /\ report_runs evs = 1%nat /\
  writes evs = [WriteFile p report] /\ time_slept evs = 0 /\ prompts_sent evs = [].
Proof. repeat split. Qed.

(** X8. The loop stops at the first test run that passes. When the
    first [j] test runs fail and the next one exits with code 0 (the
    cap allowing for it, the coverage command finishing, the place of
    the report not taken by a directory), the run returns [True] with
    exit code 0 after [j + 1] test runs: the counter has advanced by
    [j + 1] and the report states that value with the output of the
    passing run; [j] debug prompts followed the initial prompt, each
    with the counter and the output of the run it answers, and the
    run slept [2 * j] seconds. *)
Theorem success_at_pass (respond : State -> string -> string) (agent : Agent) (w : World)
    (req ins out err : string) (cov : CompletedProcess) (j : nat) :
  let st0 := mkState agent w in
  can_start st0 req ins ->
  iteration agent + Z.of_nat j < max_iterations agent ->
  (forall k, (k < j)%nat -> test_fails (procs w (launched w + k)%nat) = true) ->
  procs w (launched w + j)%nat = Finishes (Completed 0 out err) ->
  procs w (S (launched w + j)) = Finishes cov ->
  fs w !! report_path st0 <> Some Dir ->
  let count := iteration agent + Z.of_nat j + 1 in
  let report := report_text count (out ++ err) (cp_stdout cov) in
  exists st' evs,
    autonomous_development_loop respond st0 = (Ret true, st') /\
    run_agent respond agent w = (Exit 0, st') /\
    iteration (self st') = count /\
    trace (world st') = (trace w ++ evs)%list /\
    test_executions evs = S j /\
    report_runs evs = 1%nat /\
    writes evs = [WriteFile (report_path st0) report] /\
    fs (world st') !! report_path st0 = Some (File report) /\
    time_slept evs = 2 * Z.of_nat j /\
    prompts_sent evs =
      (iteration agent, initial_prompt ins req)
      :: map (fun k =>
                (iteration agent + 1 + Z.of_nat k,
                 debug_prompt (iteration agent + 1 + Z.of_nat k)
                   (failure_output (procs w (launched w + k)%nat))))
           (seq 0 j).
Proof.
  intros st0 Hstart Hcap Hfail Hrun Hcov Hfree count report.
  destruct (loop_after_failures respond agent w req ins j Hstart Hfail)
    as (f1 & evs & F & L & Ht & Hr & Hw & Hs & Hp); [intros _; lia |].
  pose (stj := evolved st0 (iteration agent + Z.of_nat j) f1 (launched w + j) evs).
  change (autonomous_development_loop respond st0 =
          development_passes respond
            (Z.to_nat (max_iterations agent - (iteration agent + Z.of_nat j))) stj) in L.
  set (r := {| passed := true; output := out ++ err; returncode := 0 |}).
  assert (Hn : exists n, Z.to_nat (max_iterations agent - (iteration agent + Z.of_nat j))
                         = S n)
    by (exists (Nat.pred (Z.to_nat (max_iterations agent - (iteration agent + Z.of_nat j))));
        lia).
  destruct Hn as (n & Hn). rewrite Hn in L.
  rewrite (development_passes_success respond n stj r cov) in L.
  2: { cbn. lia. }
  2: { unfold next_outcome. cbn. now rewrite Hrun. }
  2: { reflexivity. }
  2: { exact Hcov. }
  2: { destruct Hstart as ((HR & _) & _). split.
       - change (f1 !! report_path st0 <> Some Dir).
         now rewrite (F _ (report_not_scaffolded st0)).
       - change (f1 !! root st0 = Some Dir).
         now rewrite (F _ (root_not_scaffolded st0)). }
  destruct (passed_tail_readings count (max_iterations agent) (root st0) (report_path st0)
              report) as (Ht1 & Hr1 & Hw1 & Hs1 & Hp1).
  cbv zeta in Ht1, Hr1, Hw1, Hs1, Hp1.
  eexists (passed_pass stj r cov), (evs ++ _)%list.
  split; [exact L |]. split; [unfold run_agent; fold st0; now rewrite L |].
  rewrite test_executions_app, report_runs_app, writes_app, time_slept_app,
    prompts_sent_app, Ht, Hr, Hw, Hs, Hp, Ht1, Hr1, Hw1, Hs1, Hp1.
  split; [reflexivity |].
  split; [unfold passed_pass, reported; cbn; now rewrite <- !List.app_assoc |].
  split; [lia |]. split; [reflexivity |]. split; [reflexivity |].
  split; [apply lookup_insert_eq |]. split; [lia |].
  now rewrite List.app_nil_r.
Qed.

Lemma not_Exception_is_interrupt (e : exn) :
  is_Exception e = false -> is_KeyboardInterrupt e = true /\ is_TimeoutExpired e = false.
Proof.
  unfold is_Exception, is_KeyboardInterrupt, is_TimeoutExpired.
  destruct (exn_cls e); easy.
Qed.

(** X9. [run_tests] does not catch the interrupt of the user. When
    launching the test command raises [KeyboardInterrupt] (after [j]
    failed runs, the cap allowing for one more pass), the exception
    leaves the loop; [main] prints the interruption notice, not a
    traceback, and exits with code 1. The interrupted launch counts:
    the counter and the number of launches are [j + 1]. No debug
    prompt follows it, and nothing is written. *)
Theorem interrupt_during_tests (respond : State -> string -> string) (agent : Agent)
    (w : World) (req ins : string) (e : exn) (j : nat) :
  let st0 := mkState agent w in
  can_start st0 req ins ->
  iteration agent + Z.of_nat j < max_iterations agent ->
  (forall k, (k < j)%nat -> test_fails (procs w (launched w + k)%nat) = true) ->
  procs w (launched w + j)%nat = Fails e ->
  is_Exception e = false ->
  exists st' evs,
    fst (autonomous_development_loop respond st0) = Raise e /\
    run_agent respond agent w = (Exit 1, st') /\
    iteration (self st') = iteration agent + Z.of_nat j + 1 /\
    trace (world st') =
      (trace w ++ evs
       ++ [banner (iteration agent + Z.of_nat j + 1) (max_iterations agent);
           Run pytest_argv (root st0) (Some 60);
           Stdout "

⚠️  Development interrupted by user"])%list /\
    test_executions evs = j /\
    length (prompts_sent evs) = S j /\
    report_runs evs = 0%nat /\
    writes evs = [] /\
    fs (world st') !! report_path st0 = fs w !! report_path st0.
Proof.
  intros st0 Hstart Hcap Hfail Hrun He.
  destruct (not_Exception_is_interrupt e He) as (Hk & Hto).
  destruct (loop_after_failures respond agent w req ins j Hstart Hfail)
    as (f1 & evs & F & L & Ht & Hr & Hw & Hs & Hp); [intros _; lia |].
  pose (stj := evolved st0 (iteration agent + Z.of_nat j) f1 (launched w + j) evs).
  change (autonomous_development_loop respond st0 =
          development_passes respond
            (Z.to_nat (max_iterations agent - (iteration agent + Z.of_nat j))) stj) in L.
  assert (Hn : exists n, Z.to_nat (max_iterations agent - (iteration agent + Z.of_nat j))
                         = S n)
    by (exists (Nat.pred (Z.to_nat (max_iterations agent - (iteration agent + Z.of_nat j))));
        lia).
  destruct Hn as (n & Hn). rewrite Hn in L.
  rewrite (development_passes_interrupted respond n stj e) in L.
  2: { cbn. lia. }
  2: { unfold next_outcome. cbn. rewrite Hrun. cbn. now rewrite Hto, He. }
  unfold run_agent. fold st0. rewrite L, Hk.
  eexists _, evs. split; [reflexivity |]. split; [reflexivity |].
  split; [reflexivity |].
  split; [cbn; now rewrite <- !List.app_assoc |].
  rewrite Hp, Ht, Hr, Hw. cbn. rewrite length_map, length_seq.
  repeat split. apply (F _ (report_not_scaffolded st0)).
Qed.

(** X10. [generate_final_report] has no handler of its own: when the
    tests pass (after [j] failed runs) and launching the coverage
    command then raises, the exception leaves the loop and the run
    exits with code 1 although the tests passed. Nothing is written,
    and [main] reports the exception (with a traceback, unless it is
    the interrupt of the user). *)
Theorem coverage_failure_is_fatal (respond : State -> string -> string) (agent : Agent)
    (w : World) (req ins out err : string) (e : exn) (j : nat) :
  let st0 := mkState agent w in
  can_start st0 req ins ->
  iteration agent + Z.of_nat j < max_iterations agent ->
  (forall k, (k < j)%nat -> test_fails (procs w (launched w + k)%nat) = true) ->
  procs w (launched w + j)%nat = Finishes (Completed 0 out err) ->
  procs w (S (launched w + j)) = Fails e ->
  exists st' evs,
    fst (autonomous_development_loop respond st0) = Raise e /\
    run_agent respond agent w = (Exit 1, st') /\
    trace (world st') =
      (trace w ++ evs
       ++ (if is_KeyboardInterrupt e
           then [Stdout "

⚠️  Development interrupted by user"]
           else [Stdout ("

❌ Error: " ++ exn_str e); Traceback e]))%list /\
    test_executions evs = S j /\
    report_runs evs = 1%nat /\
    writes evs = [] /\
    fs (world st') !! report_path st0 = fs w !! report_path st0.
Proof.
  intros st0 Hstart Hcap Hfail Hrun Hcov.
  destruct (loop_after_failures respond agent w req ins j Hstart Hfail)
    as (f1 & evs & F & L & Ht & Hr & Hw & Hs & Hp); [intros _; lia |].
  pose (stj := evolved st0 (iteration agent + Z.of_nat j) f1 (launched w + j) evs).
  change (autonomous_development_loop respond st0 =
          development_passes respond
            (Z.to_nat (max_iterations agent - (iteration agent + Z.of_nat j))) stj) in L.
  set (r := {| passed := true; output := out ++ err; returncode := 0 |}).
  assert (Hn : exists n, Z.to_nat (max_iterations agent - (iteration agent + Z.of_nat j))
                         = S n)
    by (exists (Nat.pred (Z.to_nat (max_iterations agent - (iteration agent + Z.of_nat j))));
        lia).
  destruct Hn as (n & Hn). rewrite Hn in L.
  rewrite (development_passes_coverage_fails respond n stj r e) in L.
  2: { cbn. lia. }
  2: { unfold next_outcome. cbn. now rewrite Hrun. }
  2: { reflexivity. }
  2: { exact Hcov. }
  unfold run_agent. fold st0. rewrite L.
  match goal with
  | |- context [if is_KeyboardInterrupt e then (Exit 1, log _ ?X) else _] =>
      destruct (handlers_exit_1 e X) as (extra & -> & _ & _ & _ & _ & ->)
  end.
  eexists _, (evs ++ [_; _; _; _])%list.
  split; [reflexivity |]. split; [reflexivity |].
  split; [cbn; now rewrite <- !List.app_assoc |].
  rewrite test_executions_app, report_runs_app, writes_app, Ht, Hr, Hw.
  split; [match goal with |- (j + ?x)%nat = _ => change x with 1%nat end; lia |].
  split; [reflexivity |]. split; [reflexivity |].
  apply (F _ (report_not_scaffolded st0)).
Qed.


Lemma can_scaffold_creatable (st : State) :
  can_scaffold st ->
  creatable (fs (world st)) (child (root st) "src") /\
  creatable (fs (world st)) (child (root st) "tests").
Proof.
  intros (HR & HS & HT). unfold creatable. rewrite !parent_child, HR.
  unfold not_a_file in HS, HT.
  destruct (fs (world st) !! child (root st) "src") as [[| |]|],
    (fs (world st) !! child (root st) "tests") as [[| |]|]; tauto.
Qed.

Lemma setup_lays_out (st : State) :
  can_scaffold st ->
  exists f',
    setup_project_structure st = (Ret tt, set_fs f' st) /\
    scaffolded_from st f' /\
    layout_exists (set_fs f' st).
Proof.
  intros Hsc. destruct (setup_ok st Hsc) as (f' & E & F).
  exists f'. split; [exact E |]. split; [exact F |].
  destruct (can_scaffold_creatable st Hsc) as (CS & CT).
  rewrite setup_project_structure_eq in E.
  destruct (scaffold_outcome (named st "src") (named st "tests")
              (path_join (named st "src") "__init__.py")
              (path_join (named st "tests") "__init__.py")
              (root st) (child (root st) "src") (child (root st) "tests")
              (child (child (root st) "src") "__init__.py")
              (child (child (root st) "tests") "__init__.py") st)
    as [(_ & _ & f2 & E2 & HS & HT & HSI & HTI) | (N & _)];
    try apply parent_child; try apply root_neq_child;
    try (apply child_neq_last; discriminate); [| tauto].
  rewrite E2 in E. injection E as E. subst f2.
  repeat split; assumption.
Qed.

(** X12. The instructions are read from the working directory, not
    from the project directory, and only after the layout was made and
    the requirements were read. When [SYSTEM_INSTRUCTIONS.md] is not
    in the working directory the run ends with [FileNotFoundError]
    for that bare name and exit code 1 before any prompt is sent or
    test run: the layout has been made all the same. *)
Theorem missing_instructions_aborts (respond : State -> string -> string) (agent : Agent)
    (w : World) (req : string) :
  let st0 := mkState agent w in
  can_scaffold st0 ->
  reads_as (fs w !! requirements_path st0) req ->
  fs w !! cwd w = Some Dir ->
  fs w !! child (cwd w) "SYSTEM_INSTRUCTIONS.md" = None ->
  let e := Exn FileNotFoundError
             "[Errno 2] No such file or directory: 'SYSTEM_INSTRUCTIONS.md'" in
  exists st',
    fst (autonomous_development_loop respond st0) = Raise e /\
    run_agent respond agent w = (Exit 1, st') /\
    trace (world st') =
      (trace w ++ loaded_events st0 req
       ++ [Stdout ("

❌ Error: " ++ exn_str e); Traceback e])%list /\
    prompts_sent (trace (world st')) = prompts_sent (trace w) /\
    launched (world st') = launched w /\
    layout_exists st'.
Proof.
  intros st0 Hsc Hreq Hcwd Hins e.
  assert (S : exists f',
            startup respond st0 = (Raise e, add_events (loaded_events st0 req) (set_fs f' st0))
            /\ layout_exists (set_fs f' st0)).
  { unfold startup, bind, get, print, emit. cbn.
    match goal with
    | |- context [setup_project_structure ?X] =>
        pose proof (setup_adds_only X) as A;
        destruct (setup_lays_out X Hsc) as (f' & E & F & Hl); rewrite E in A |- *
    end.
    cbn in A.
    exists f'. split; [| exact Hl].
    assert (Hreq' : reads_as (f' !! requirements_path st0) req)
      by (rewrite (F _ (requirements_not_scaffolded st0)); exact Hreq).
    rewrite (read_requirements_eq _ req) by exact Hreq'.
    unfold Os.read_text, Os.absent_error. cbn.
    rewrite (F _ (instructions_not_scaffolded st0)). cbn.
    change (fs w !! instructions_path st0) with (fs w !! child (cwd w) "SYSTEM_INSTRUCTIONS.md").
    rewrite Hins.
    change (parent (instructions_path st0)) with (parent (child (cwd w) "SYSTEM_INSTRUCTIONS.md")).
    rewrite parent_child, (adds_only_keeps _ _ _ _ _ A Hcwd). f_equal.
    unfold loaded_events, add_events, set_fs, log. cbn. same_state. }
  destruct S as (f' & E & Hl).
  assert (L : autonomous_development_loop respond st0
              = (Raise e, add_events (loaded_events st0 req) (set_fs f' st0)))
    by (unfold autonomous_development_loop, bind; now rewrite E).
  unfold run_agent. fold st0. rewrite L.
  change (is_KeyboardInterrupt e) with false. cbv iota.
  eexists. split; [reflexivity |]. split; [reflexivity |].
  split; [cbn; now rewrite <- !List.app_assoc |].
  split.
  { unfold log, add_events. cbn [trace world set_fs].
    rewrite !prompts_sent_app.
    change (prompts_sent (loaded_events st0 req)) with (@nil (Z * string)).
    cbn. now rewrite !List.app_nil_r. }
  split; [reflexivity | exact Hl].
Qed.

(** X13. A run whose tests keep failing, from any value of the
    counter: with [n] the passes the cap still allows (none when the
    counter has reached the cap, as on a second call of the loop on
    the same agent), the run makes exactly [n] test runs when the first
    [n] launches fail, then returns [False]. The prompts sent are the
    initial one and, after each failed run, a debug prompt with the
    counter and the output of that run; the run sleeps [2 * n]
    seconds, and the counter ends at the larger of its start and the
    cap. *)
Theorem exhausted_run_in_full (respond : State -> string -> string) (agent : Agent)
    (w : World) (req ins : string) :
  let st0 := mkState agent w in
  let n := Z.to_nat (max_iterations agent - iteration agent) in
  can_start st0 req ins ->
  (forall k, (k < n)%nat -> test_fails (procs w (launched w + k)%nat) = true) ->
  exists st' evs,
    autonomous_development_loop respond st0 = (Ret false, st') /\
    run_agent respond agent w = (Exit 1, st') /\
    trace (world st') = (trace w ++ evs)%list /\
    test_executions evs = n /\
    launched (world st') = (launched w + n)%nat /\
    iteration (self st') = Z.max (iteration agent) (max_iterations agent) /\
    time_slept evs = 2 * Z.of_nat n /\
    writes evs = [] /\
    prompts_sent evs =
      (iteration agent, initial_prompt ins req)
      :: map (fun k =>
                (iteration agent + 1 + Z.of_nat k,
                 debug_prompt (iteration agent + 1 + Z.of_nat k)
                   (failure_output (procs w (launched w + k)%nat))))
           (seq 0 n).
Proof.
  intros st0 n Hstart Hfail.
  destruct (loop_after_failures respond agent w req ins n Hstart Hfail)
    as (f1 & evs & F & L & Ht & Hr & Hw & Hs & Hp); [unfold n; lia |].
  rewrite development_passes_exhausted in L by (unfold n; cbn; lia).
  eexists _, (evs ++ [_])%list. split; [exact L |].
  split; [unfold run_agent; now rewrite L |].
  rewrite test_executions_app, writes_app, time_slept_app, prompts_sent_app,
    Ht, Hw, Hs, Hp.
  split; [cbn; now rewrite <- !List.app_assoc |].
  split; [cbn; lia |]. split; [reflexivity |].
  split; [cbn; unfold n; lia |]. split; [cbn; lia |]. split; [reflexivity |].
  cbn. now rewrite List.app_nil_r.
Qed.

(** ** Concrete runs for the further properties *)


(** Two runs of the demo project with children that never end. When
    the tests pass and the coverage child stays, the run never ends:
    it has launched both commands and written nothing. When no child
    ever ends, every test run is cut by its timeout, the coverage
    command is never launched, and the run ends with exit code 1 after
    the three test runs its cap allows. *)
Lemma runs_with_children_that_stay :
  let stuck := run_agent placeholder (demo_agent 3) (demo_world demo_fs passes_then_stays) in
  let cut := run_agent placeholder (demo_agent 3) (demo_world demo_fs always_stays) in
  (fst stuck = Hangs /\
   test_executions (trace (world (snd stuck))) = 1%nat /\
   report_runs (trace (world (snd stuck))) = 1%nat /\
   writes (trace (world (snd stuck))) = []) /\
  (fst cut = Exit 1 /\
   test_executions (trace (world (snd cut))) = 3%nat /\
   report_runs (trace (world (snd cut))) = 0%nat /\
   map snd (tl (prompts_sent (trace (world (snd cut)))))
   = [ debug_prompt 1 "Tests timed out after 60 seconds";
       debug_prompt 2 "Tests timed out after 60 seconds";
       debug_prompt 3 "Tests timed out after 60 seconds" ]).
Proof. vm_compute. repeat split. Qed.

Lemma exit_code_0_certifies_report_witness :
  let w := demo_world demo_fs (passes_after 2) in
  let st' := snd (run_agent placeholder (demo_agent 5) w) in
  fst (run_agent placeholder (demo_agent 5) w) = Exit 0 /\
  exists evs j t_out t_err cov,
    trace (world st') = ([] ++ evs)%list /\
    test_executions evs = S j /\
    report_runs evs = 1%nat /\
    (forall k, (k < j)%nat -> test_fails (passes_after 2 (0 + k)) = true) /\
    passes_after 2 (0 + j) = Finishes (Completed 0 t_out t_err) /\
    passes_after 2 (0 + S j) = Finishes cov /\
    iteration (self st') = 0 + Z.of_nat (S j) /\
    let report := report_text (iteration (self st')) (t_out ++ t_err) (cp_stdout cov) in
    writes evs = [WriteFile ["work"; "COMPLETION_REPORT.md"] report] /\
    fs (world st') !! ["work"; "COMPLETION_REPORT.md"] = Some (File report) /\
    contains ("Total iterations: " ++ str_of_int (iteration (self st'))) report /\
    contains (t_out ++ t_err) report /\
    contains (cp_stdout cov) report.
Proof.
  cbv zeta. split; [vm_compute; reflexivity |].
  apply (exit_code_0_certifies_report placeholder (demo_agent 5)
           (demo_world demo_fs (passes_after 2))
           (snd (run_agent placeholder (demo_agent 5) (demo_world demo_fs (passes_after 2))))).
  vm_compute. reflexivity.
Defined.

Lemma success_at_pass_witness :
  exists st',
    run_agent placeholder (demo_agent 5) (demo_world demo_fs (passes_after 2)) = (Exit 0, st') /\
    iteration (self st') = 3.
Proof.
  destruct (success_at_pass placeholder (demo_agent 5) (demo_world demo_fs (passes_after 2))
              "build a calculator" "be careful" "ok" "" (Completed 0 "ok" "") 2)
    as (st' & evs & _ & E & Hi & _).
  - apply demo_can_start.
  - cbn. lia.
  - intros k Hk. destruct k as [|[|k]]; [reflexivity | reflexivity | lia].
  - reflexivity.
  - reflexivity.
  - vm_compute. discriminate.
  - exists st'. split; [exact E | exact Hi].
Defined.

Lemma interrupt_during_tests_witness :
  exists st',
    run_agent placeholder (demo_agent 5)
      (demo_world demo_fs (raises_after 1 user_interrupt)) = (Exit 1, st') /\
    iteration (self st') = 2.
Proof.
  destruct (interrupt_during_tests placeholder (demo_agent 5)
              (demo_world demo_fs (raises_after 1 user_interrupt))
              "build a calculator" "be careful" user_interrupt 1)
    as (st' & evs & _ & E & Hi & _).
  - apply demo_can_start.
  - cbn. lia.
  - intros k Hk. destruct k as [|k]; [reflexivity | lia].
  - reflexivity.
  - reflexivity.
  - exists st'. split; [exact E | exact Hi].
Defined.

Lemma coverage_failure_is_fatal_witness :
  exists st',
    run_agent placeholder (demo_agent 5)
      (demo_world demo_fs (passes_then_raises pytest_not_found)) = (Exit 1, st').
Proof.
  destruct (coverage_failure_is_fatal placeholder (demo_agent 5)
              (demo_world demo_fs (passes_then_raises pytest_not_found))
              "build a calculator" "be careful" "ok" "" pytest_not_found 0)
    as (st' & evs & _ & E & _).
  - apply demo_can_start.
  - cbn. lia.
  - intros k Hk. lia.
  - reflexivity.
  - reflexivity.
  - exists st'. exact E.
Defined.



Lemma missing_instructions_aborts_witness :
  exists st',
    fst (autonomous_development_loop placeholder
           (mkState (__init__ "./proj/") (demo_world nested_fs (always_exits 0))))
    = Raise (Exn FileNotFoundError
               "[Errno 2] No such file or directory: 'SYSTEM_INSTRUCTIONS.md'") /\
    run_agent placeholder (__init__ "./proj/") (demo_world nested_fs (always_exits 0))
    = (Exit 1, st') /\
    launched (world st') = 0%nat /\
    layout_exists st'.
Proof.
  destruct (missing_instructions_aborts placeholder (__init__ "./proj/")
              (demo_world nested_fs (always_exits 0)) "build a calculator")
    as (st' & Hraise & E & _ & _ & Hl & Hlay).
  - unfold can_scaffold. repeat split; try (vm_compute; reflexivity); vm_compute; exact I.
  - exists "build a calculator". split; vm_compute; reflexivity.
  - vm_compute. reflexivity.
  - vm_compute. reflexivity.
  - exists st'. split; [exact Hraise |]. split; [exact E |]. split; [exact Hl | exact Hlay].
Defined.

Lemma exhausted_run_in_full_witness :
  exists st' evs,
    run_agent placeholder {| project_dir := "."; max_iterations := 3; iteration := 3 |}
      (demo_world demo_fs (always_exits 0)) = (Exit 1, st') /\
    trace (world st') = ([] ++ evs)%list /\
    test_executions evs = 0%nat.
Proof.
  destruct (exhausted_run_in_full placeholder
              {| project_dir := "."; max_iterations := 3; iteration := 3 |}
              (demo_world demo_fs (always_exits 0)) "build a calculator" "be careful")
    as (st' & evs & _ & E & Ht & Hn & _).
  - starts_with "build a calculator" "be careful".
  - intros k Hk. cbn in Hk. lia.
  - exists st', evs. split; [exact E |]. split; [exact Ht | exact Hn].
Defined.

(** ** The loader and the bridge *)



Lemma str_len_app (a b : string) : str_len (a ++ b) = (str_len a + str_len b)%nat.
Proof.
  induction a as [|c a IH]; [reflexivity |].
  change (str_len (String c (a ++ b)) = (str_len (String c a) + str_len b)%nat).
  cbn [str_len]. rewrite IH. now destruct (is_continuation c).
Qed.

Lemma str_prefix_eq (n : nat) (c : ascii) (s : string) :
  str_prefix n (String c s) =
  if is_continuation c then String c (str_prefix n s)
  else match n with
       | O => ""
       | S n' => String c (str_prefix n' s)
       end.
Proof. reflexivity. Qed.

Lemma str_prefix_length (n : nat) (s : string) : (str_len (str_prefix n s) <= n)%nat.
Proof.
  revert n. induction s as [|c s IH]; intros n; [apply Nat.le_0_l |].
  rewrite str_prefix_eq. destruct (is_continuation c) eqn:Hc.
  - cbn [str_len]. rewrite Hc. apply IH.
  - destruct n as [|n]; [apply Nat.le_0_l |].
    cbn [str_len]. rewrite Hc. specialize (IH n). lia.
Qed.

Lemma str_prefix_is_prefix (n : nat) (s : string) :
  exists rest, s = str_prefix n s ++ rest.
Proof.
  revert n. induction s as [|c s IH]; intros n; [now exists "" |].
  rewrite str_prefix_eq. destruct (is_continuation c).
  - destruct (IH n) as (rest & E). exists rest.
    change (String c s = String c (str_prefix n s ++ rest)). now rewrite <- E.
  - destruct n as [|n]; [now exists (String c s) |].
    destruct (IH n) as (rest & E). exists rest.
    change (String c s = String c (str_prefix n s ++ rest)). now rewrite <- E.
Qed.

Lemma str_prefix_short (n : nat) (s : string) :
  (str_len s <= n)%nat -> str_prefix n s = s.
Proof.
  revert n. induction s as [|c s IH]; intros n H; [reflexivity |].
  rewrite str_prefix_eq. cbn [str_len] in H. destruct (is_continuation c).
  - now rewrite IH.
  - destruct n as [|n]; [lia |]. rewrite IH; [reflexivity | lia].
Qed.

Lemma str_prefix_long (n : nat) (s : string) :
  (n <= str_len s)%nat -> str_len (str_prefix n s) = n.
Proof.
  revert n. induction s as [|c s IH]; intros n H.
  - cbn in H. now destruct n; [| lia].
  - rewrite str_prefix_eq. cbn [str_len] in H. destruct (is_continuation c) eqn:Hc.
    + cbn [str_len]. rewrite Hc. now apply IH.
    + destruct n as [|n]; [reflexivity |].
      cbn [str_len]. rewrite Hc, IH; [reflexivity | lia].
Qed.

Lemma initial_prompt_long (ins req : string) :
  (200 < str_len (initial_prompt ins req))%nat.
Proof. unfold initial_prompt. rewrite !str_len_app. count_fixed. lia. Qed.

Lemma debug_prompt_long (i : Z) (test_output : string) :
  (200 < str_len (debug_prompt i test_output))%nat.
Proof. unfold debug_prompt. rewrite !str_len_app. count_fixed. lia. Qed.

(** X15. What the bridge prints of a prompt is its first 200
    characters, counted as characters and not as bytes: the excerpt is
    a prefix of the prompt of at most 200 characters, the whole prompt
    when the prompt is no longer than that, and exactly 200 characters
    otherwise. The two prompts the loop builds are always longer than
    200 characters, whatever the documents and the test output hold,
    so every excerpt a run prints is cut at 200; the prompt handed
    over is whole. The answer of the source's stub is the same
    placeholder for every prompt. *)
Theorem send_to_claude_excerpt (respond : State -> string -> string) (prompt : string)
    (st : State) :
  let shown := str_prefix 200 prompt in
  let evs := send_events (iteration (self st)) prompt in
  snd (send_to_claude respond prompt st) = add_events evs st /\
  writes evs = [] /\
  prompts_sent evs = [(iteration (self st), prompt)] /\
  In (Stdout ("
Sending to Claude:
" ++ shown ++ "...
")) evs /\
  (str_len shown <= 200)%nat /\
  (exists rest, prompt = shown ++ rest) /\
  ((str_len prompt <= 200)%nat -> shown = prompt) /\
  ((200 <= str_len prompt)%nat -> str_len shown = 200%nat) /\
  (forall ins req, str_len (str_prefix 200 (initial_prompt ins req)) = 200%nat) /\
  (forall i test_output, str_len (str_prefix 200 (debug_prompt i test_output)) = 200%nat) /\
  fst (send_to_claude placeholder prompt st) = Ret "PLACEHOLDER: Claude would respond here".
Proof.
  cbv zeta. rewrite !send_to_claude_eq. cbn [fst snd].
  split; [reflexivity |]. split; [reflexivity |]. split; [reflexivity |].
  split; [unfold send_events; cbn; tauto |].
  split; [apply str_prefix_length |].
  split; [apply str_prefix_is_prefix |].
  split; [apply str_prefix_short |].
  split; [apply str_prefix_long |].
  split; [intros ins req; apply str_prefix_long; pose proof (initial_prompt_long ins req); lia |].
  split; [| reflexivity].
  intros i out. apply str_prefix_long. pose proof (debug_prompt_long i out). lia.
Qed.
